(** * mlflow: dataset digests and the error-code taxonomy

    A shallow embedding of [mlflow/data/dataset.py] and
    [mlflow/exceptions.py], with the parts of the Python runtime they
    call ([dict], [json.dumps], [str.encode], [hashlib.md5]) written out
    as executable functions. *)

From Stdlib Require Import String Ascii DecimalString.
From Stdlib Require Import ZArith NArith Bool Lia List.
Import ListNotations.
Set Warnings "-register-all".
Open Scope Z_scope.

(** ** Python strings, values, exceptions *)

(** A Python [str] is a sequence of code points. *)
Definition pystr := list N.

Fixpoint u (s : string) : pystr :=
  match s with
  | EmptyString => []
  | String a r => N_of_ascii a :: u r
  end.
Arguments u s%_string.

Fixpoint pystr_eqb (a b : pystr) : bool :=
  match a, b with
  | [], [] => true
  | x :: a', y :: b' => N.eqb x y && pystr_eqb a' b'
  | _, _ => false
  end.

(** The Python values that reach the modelled code: what [json.loads]
    produces, without floats. *)
Inductive pyval : Type :=
| PyNone
| PyBool (b : bool)
| PyInt (z : Z)
| PyStr (s : pystr)
| PyList (l : list pyval)
| PyDict (d : list (pystr * pyval)).

Inductive pyexc : Type :=
| ValueError
| TypeError
| AttributeError
| KeyError
| UnicodeEncodeError.

Inductive result (A : Type) : Type :=
| Ok (a : A)
| Raise (e : pyexc).
Arguments Ok {A} a.
Arguments Raise {A} e.

Definition bind {A B} (m : result A) (k : A -> result B) : result B :=
  match m with
  | Ok a => k a
  | Raise e => Raise e
  end.

Declare Scope py_scope.
Delimit Scope py_scope with py.
Notation "x <- m ;; k" := (bind m (fun x => k))
  (at level 61, m at next level, right associativity) : py_scope.
Open Scope py_scope.

(** ** Python dictionaries

    A [dict] keeps its keys in insertion order and [json.dumps] prints
    them in that order, so a dictionary is an association list without
    repeated keys: assigning to a key that is present replaces the value
    where it stands, assigning to a new key appends. *)
Section Dict.
Context {K V : Type} (eqb : K -> K -> bool).

Definition dict := list (K * V).

Fixpoint dict_get (d : dict) (k : K) : option V :=
  match d with
  | [] => None
  | (k', v) :: d' => if eqb k k' then Some v else dict_get d' k
  end.

(** [d.get(k, default)] *)
Definition dict_get_default (d : dict) (k : K) (default : V) : V :=
  match dict_get d k with
  | Some v => v
  | None => default
  end.

(** [d[k] = v] *)
Fixpoint dict_set (k : K) (v : V) (d : dict) : dict :=
  match d with
  | [] => [(k, v)]
  | (k', v') :: d' =>
      if eqb k k' then (k', v) :: d' else (k', v') :: dict_set k v d'
  end.

(** [d.update(e)] *)
Definition dict_update (d e : dict) : dict :=
  fold_left (fun acc kv => dict_set (fst kv) (snd kv) acc) e d.

(** [d.pop(k)] without its result *)
Fixpoint dict_pop (k : K) (d : dict) : dict :=
  match d with
  | [] => []
  | (k', v') :: d' => if eqb k k' then d' else (k', v') :: dict_pop k d'
  end.

(** A dict display [{k1: v1, ..., kn: vn}]: the keys and values are
    evaluated from left to right and stored in that order. *)
Definition dict_literal (kvs : list (K * V)) : dict :=
  dict_update [] kvs.

End Dict.

Definition pydict := list (pystr * pyval).
Definition py_get : pydict -> pystr -> option pyval := dict_get pystr_eqb.
Definition py_update : pydict -> pydict -> pydict := dict_update pystr_eqb.

(** ** [hashlib.md5] (RFC 1321) on bytes, words as [Z] modulo [2^32] *)
Module MD5.

Definition wrap32 (x : Z) : Z := x mod 4294967296.

Definition rotl32 (x n : Z) : Z :=
  wrap32 (Z.lor (Z.shiftl x n) (Z.shiftr x (32 - n))).

Definition not32 (x : Z) : Z := Z.lxor x 4294967295.

Definition s_table : list Z :=
  [7; 12; 17; 22; 7; 12; 17; 22; 7; 12; 17; 22; 7; 12; 17; 22;
   5; 9; 14; 20; 5; 9; 14; 20; 5; 9; 14; 20; 5; 9; 14; 20;
   4; 11; 16; 23; 4; 11; 16; 23; 4; 11; 16; 23; 4; 11; 16; 23;
   6; 10; 15; 21; 6; 10; 15; 21; 6; 10; 15; 21; 6; 10; 15; 21].

Definition K_table : list Z :=
  [0xd76aa478; 0xe8c7b756; 0x242070db; 0xc1bdceee;
   0xf57c0faf; 0x4787c62a; 0xa8304613; 0xfd469501;
   0x698098d8; 0x8b44f7af; 0xffff5bb1; 0x895cd7be;
   0x6b901122; 0xfd987193; 0xa679438e; 0x49b40821;
   0xf61e2562; 0xc040b340; 0x265e5a51; 0xe9b6c7aa;
   0xd62f105d; 0x02441453; 0xd8a1e681; 0xe7d3fbc8;
   0x21e1cde6; 0xc33707d6; 0xf4d50d87; 0x455a14ed;
   0xa9e3e905; 0xfcefa3f8; 0x676f02d9; 0x8d2a4c8a;
   0xfffa3942; 0x8771f681; 0x6d9d6122; 0xfde5380c;
   0xa4beea44; 0x4bdecfa9; 0xf6bb4b60; 0xbebfbc70;
   0x289b7ec6; 0xeaa127fa; 0xd4ef3085; 0x04881d05;
   0xd9d4d039; 0xe6db99e5; 0x1fa27cf8; 0xc4ac5665;
   0xf4292244; 0x432aff97; 0xab9423a7; 0xfc93a039;
   0x655b59c3; 0x8f0ccc92; 0xffeff47d; 0x85845dd1;
   0x6fa87e4f; 0xfe2ce6e0; 0xa3014314; 0x4e0811a1;
   0xf7537e82; 0xbd3af235; 0x2ad7d2bb; 0xeb86d391].

Record state := mkState { sA : Z; sB : Z; sC : Z; sD : Z }.

Definition init_state : state :=
  mkState 0x67452301 0xefcdab89 0x98badcfe 0x10325476.

(** Little-endian 32-bit word of four bytes, and back. *)
Definition word_of_bytes (bs : list Z) : Z :=
  nth 0 bs 0 + 256 * nth 1 bs 0 + 65536 * nth 2 bs 0 + 16777216 * nth 3 bs 0.

Definition bytes_of_word (w : Z) : list Z :=
  [w mod 256; (w / 256) mod 256; (w / 65536) mod 256; (w / 16777216) mod 256].

Fixpoint words_of_block (n : nat) (bs : list Z) : list Z :=
  match n with
  | O => []
  | S n' => word_of_bytes (firstn 4 bs) :: words_of_block n' (skipn 4 bs)
  end.

(** One of the 64 operations of a block. *)
Definition step (M : list Z) (st : state) (i : nat) : state :=
  let '(mkState a b c d) := st in
  let iz := Z.of_nat i in
  let '(f, g) :=
    if iz <? 16 then (Z.lor (Z.land b c) (Z.land (not32 b) d), iz)
    else if iz <? 32 then
      (Z.lor (Z.land d b) (Z.land (not32 d) c), (5 * iz + 1) mod 16)
    else if iz <? 48 then (Z.lxor (Z.lxor b c) d, (3 * iz + 5) mod 16)
    else (Z.lxor c (Z.lor b (not32 d)), (7 * iz) mod 16) in
  let f' := wrap32 (f + a + nth i K_table 0 + nth (Z.to_nat g) M 0) in
  mkState d (wrap32 (b + rotl32 f' (nth i s_table 0))) b c.

Definition compress (st : state) (block : list Z) : state :=
  let M := words_of_block 16 block in
  let st' := fold_left (step M) (seq 0 64) st in
  mkState (wrap32 (sA st + sA st')) (wrap32 (sB st + sB st'))
          (wrap32 (sC st + sC st')) (wrap32 (sD st + sD st')).

(** The message followed by [0x80], zeros up to 56 modulo 64, and the bit
    length as a little-endian 64-bit number. *)
Definition pad (msg : list Z) : list Z :=
  let len := Z.of_nat (length msg) in
  let zeros := Z.to_nat ((55 - len) mod 64) in
  let bits := (8 * len) mod 18446744073709551616 in
  msg ++ [128] ++ repeat 0 zeros
      ++ bytes_of_word (bits mod 4294967296)
      ++ bytes_of_word (bits / 4294967296).

Fixpoint blocks (n : nat) (st : state) (bs : list Z) : state :=
  match n with
  | O => st
  | S n' => blocks n' (compress st (firstn 64 bs)) (skipn 64 bs)
  end.

(** [hashlib.md5(msg).digest()] *)
Definition digest (msg : list Z) : list Z :=
  let p := pad msg in
  let st := blocks (length p / 64) init_state p in
  bytes_of_word (sA st) ++ bytes_of_word (sB st)
    ++ bytes_of_word (sC st) ++ bytes_of_word (sD st).

Definition hex_digit (n : Z) : N :=
  if n <? 10 then Z.to_N (48 + n) else Z.to_N (87 + n).

Definition hex_byte (b : Z) : pystr := [hex_digit (b / 16); hex_digit (b mod 16)].

(** [hashlib.md5(msg).hexdigest()] *)
Definition hexdigest (msg : list Z) : pystr := flat_map hex_byte (digest msg).

End MD5.

(** The bytes of a string of code points below 256. *)
Definition bytes_of (s : pystr) : list Z := map Z.of_N s.

(** ** [json.dumps] with its defaults ([ensure_ascii=True], separators
    [", "] and [": "]) *)

Definition hex4 (n : N) : pystr :=
  let z := Z.of_N n in
  [MD5.hex_digit ((z / 4096) mod 16); MD5.hex_digit ((z / 256) mod 16);
   MD5.hex_digit ((z / 16) mod 16); MD5.hex_digit (z mod 16)].

(** [\uXXXX] *)
Definition u_escape (n : N) : pystr := [92; 117]%N ++ hex4 n.

(** The replacement of one character by [py_encode_basestring_ascii]:
    the short escapes of [ESCAPE_DCT], the printable ASCII characters
    unchanged, everything else as [\uXXXX], above the basic plane as a
    surrogate pair. *)
Definition escape_char (c : N) : pystr :=
  (if c =? 92 then [92; 92]
   else if c =? 34 then [92; 34]
   else if c =? 8 then [92; 98]
   else if c =? 12 then [92; 102]
   else if c =? 10 then [92; 110]
   else if c =? 13 then [92; 114]
   else if c =? 9 then [92; 116]
   else if (32 <=? c) && (c <=? 126) then [c]
   else if c <? 65536 then u_escape c
   else
     let n := c - 65536 in
     u_escape (N.lor 55296 (N.land (N.shiftr n 10) 1023))
       ++ u_escape (N.lor 56320 (N.land n 1023)))%N.

Definition encode_basestring_ascii (s : pystr) : pystr :=
  [34%N] ++ flat_map escape_char s ++ [34%N].

(** [sep.join(l)] *)
Fixpoint join (sep : pystr) (l : list pystr) : pystr :=
  match l with
  | [] => []
  | [x] => x
  | x :: r => x ++ sep ++ join sep r
  end.

(** [str(z)] of an [int] *)
Definition str_of_int (z : Z) : pystr := u (NilZero.string_of_int (Z.to_int z)).

Fixpoint json_dumps (v : pyval) : pystr :=
  match v with
  | PyNone => u "null"
  | PyBool true => u "true"
  | PyBool false => u "false"
  | PyInt z => str_of_int z
  | PyStr s => encode_basestring_ascii s
  | PyList l => u "[" ++ join (u ", ") (map json_dumps l) ++ u "]"
  | PyDict d =>
      u "{"
        ++ join (u ", ")
             (map (fun kv =>
                     encode_basestring_ascii (fst kv) ++ u ": "
                       ++ json_dumps (snd kv)) d)
        ++ u "}"
  end.

(** ** [str.encode("utf-8")]: a lone surrogate cannot be encoded *)

Definition utf8_char (c : N) : result (list Z) :=
  let z := Z.of_N c in
  if z <? 128 then Ok [z]
  else if z <? 2048 then Ok [192 + z / 64; 128 + z mod 64]
  else if z <? 65536 then
    if (55296 <=? z) && (z <=? 57343) then Raise UnicodeEncodeError
    else Ok [224 + z / 4096; 128 + (z / 64) mod 64; 128 + z mod 64]
  else Ok [240 + z / 262144; 128 + (z / 4096) mod 64;
           128 + (z / 64) mod 64; 128 + z mod 64].

Fixpoint encode_utf8 (s : pystr) : result (list Z) :=
  match s with
  | [] => Ok []
  | c :: r => b <- utf8_char c ;; bs <- encode_utf8 r ;; Ok (b ++ bs)
  end.

(** ** [mlflow/data/dataset.py] *)

(** A dataset source, as far as [Dataset] uses it: the results of its
    [to_json()] and [_get_source_type()]. *)
Record DatasetSource := mkDatasetSource {
  to_json : pystr;
  _get_source_type : pystr
}.

(** The attributes of a [Dataset]. [_source] is what the caller passed:
    a source, or [None]. *)
Record Dataset := mkDataset {
  _name : option pystr;
  _source : option DatasetSource;
  _digest : pystr
}.

(** The [name] property. *)
Definition name (self : Dataset) : pystr :=
  match _name self with
  | Some n => n
  | None => u "dataset"
  end.

(** The [digest] property. *)
Definition digest (self : Dataset) : pystr := _digest self.

(** The [source] property. *)
Definition source (self : Dataset) : option DatasetSource := _source self.

(** [Dataset._compute_digest]. [self.source.to_json()] on [None] raises
    [AttributeError]. It reads [self.name] and [self.source] only. *)
Definition _compute_digest (self : Dataset) : result pystr :=
  let name_ := name self in
  match source self with
  | None => Raise AttributeError
  | Some src =>
      let config :=
        dict_literal pystr_eqb
          [(u "name", PyStr name_);
           (u "source", PyStr (to_json src));
           (u "source_type", PyStr (_get_source_type src))] in
      bytes <- encode_utf8 (json_dumps (PyDict config)) ;;
      Ok (firstn 8 (MD5.hexdigest bytes))
  end.

(** [Dataset.__init__(source, name, digest)]: [digest or
    self._compute_digest()] computes the digest when [digest] is [None]
    or the empty string. *)
Definition Dataset__init__ (source_ : option DatasetSource)
    (name_ digest_ : option pystr) : result Dataset :=
  let self := mkDataset name_ source_ [] in
  match digest_ with
  | Some (c :: r) => Ok (mkDataset name_ source_ (c :: r))
  | _ => d <- _compute_digest self ;; Ok (mkDataset name_ source_ d)
  end.

(** [Dataset.to_dict] *)
Definition to_dict (self : Dataset) : result pydict :=
  let name_ := name self in
  let digest_ := digest self in
  match source self with
  | None => Raise AttributeError
  | Some src =>
      Ok (dict_literal pystr_eqb
            [(u "name", PyStr name_);
             (u "digest", PyStr digest_);
             (u "source", PyStr (to_json src));
             (u "source_type", PyStr (_get_source_type src))])
  end.

(** [Dataset.to_json] *)
Definition Dataset_to_json (self : Dataset) : result pystr :=
  d <- to_dict self ;; Ok (json_dumps (PyDict d)).

(** ** [mlflow/protos/databricks_pb2]

    The generated protobuf module is not part of the modelled sources; it
    is a parameter of the development. It provides the enum [ErrorCode],
    given by its values (name and number, in declaration order), and one
    integer constant per imported value. *)
Record databricks_pb2 := mk_pb2 {
  ErrorCode : list (pystr * Z);
  ABORTED : Z;
  ALREADY_EXISTS : Z;
  BAD_REQUEST : Z;
  CANCELLED : Z;
  CUSTOMER_UNAUTHORIZED : Z;
  DATA_LOSS : Z;
  DEADLINE_EXCEEDED : Z;
  ENDPOINT_NOT_FOUND : Z;
  INTERNAL_ERROR : Z;
  INVALID_PARAMETER_VALUE : Z;
  INVALID_STATE : Z;
  NOT_FOUND : Z;
  NOT_IMPLEMENTED : Z;
  PERMISSION_DENIED : Z;
  REQUEST_LIMIT_EXCEEDED : Z;
  RESOURCE_ALREADY_EXISTS : Z;
  RESOURCE_CONFLICT : Z;
  RESOURCE_DOES_NOT_EXIST : Z;
  RESOURCE_EXHAUSTED : Z;
  TEMPORARILY_UNAVAILABLE : Z;
  UNAUTHENTICATED : Z
}.

Fixpoint values_by_number (vs : list (pystr * Z)) (n : Z) : option pystr :=
  match vs with
  | [] => None
  | (nm, k) :: vs' => if k =? n then Some nm else values_by_number vs' n
  end.

Fixpoint values_by_name (vs : list (pystr * Z)) (nm : pystr) : option Z :=
  match vs with
  | [] => None
  | (nm', k) :: vs' =>
      if pystr_eqb nm' nm then Some k else values_by_name vs' nm
  end.

(** A log record: level name and text. *)
Record LogRecord := mkLog { levelname : pystr; msg : pystr }.

Section Exceptions.
Variable pb : databricks_pb2.
(** Python's [repr], used through [str] on values that are not strings. *)
Variable py_repr : pyval -> pystr.

(** [ErrorCode.Name(number)] of protobuf's [EnumTypeWrapper]: the name of
    the value with that number; [ValueError] for an integer (a [bool] is
    one) that is no value of the enum, [TypeError] for anything else. *)
Definition ErrorCode_Name (number : pyval) : result pystr :=
  let by_number z :=
    match values_by_number (ErrorCode pb) z with
    | Some nm => Ok nm
    | None => Raise ValueError
    end in
  match number with
  | PyInt z => by_number z
  | PyBool b => by_number (if b then 1 else 0)
  | _ => Raise TypeError
  end.

(** [ErrorCode.Value(name)]: the number of the value with that name;
    [ValueError] when there is none, [TypeError] for an unhashable
    argument. *)
Definition ErrorCode_Value (nm : pyval) : result Z :=
  match nm with
  | PyStr s =>
      match values_by_name (ErrorCode pb) s with
      | Some k => Ok k
      | None => Raise ValueError
      end
  | PyList _ | PyDict _ => Raise TypeError
  | _ => Raise ValueError
  end.

(** [ErrorCode.Name(C)] for a module constant [C]. *)
Definition Name_ (c : Z) : result pystr := ErrorCode_Name (PyInt c).

(** [str(v)] *)
Definition py_str (v : pyval) : pystr :=
  match v with
  | PyStr s => s
  | _ => py_repr v
  end.

(** ** [mlflow/exceptions.py] *)

(** The keys of a dict display are evaluated from left to right; the
    first that raises ends the evaluation. *)
Fixpoint eval_keys {V} (l : list (result pystr * V))
  : result (list (pystr * V)) :=
  match l with
  | [] => Ok []
  | (k, v) :: r => k' <- k ;; r' <- eval_keys r ;; Ok ((k', v) :: r')
  end.

Definition ERROR_CODE_TO_HTTP_STATUS : result (dict (K:=pystr) (V:=Z)) :=
  kvs <- eval_keys
    [(Name_ (INTERNAL_ERROR pb), 500);
     (Name_ (INVALID_STATE pb), 500);
     (Name_ (DATA_LOSS pb), 500);
     (Name_ (NOT_IMPLEMENTED pb), 501);
     (Name_ (TEMPORARILY_UNAVAILABLE pb), 503);
     (Name_ (DEADLINE_EXCEEDED pb), 504);
     (Name_ (REQUEST_LIMIT_EXCEEDED pb), 429);
     (Name_ (CANCELLED pb), 499);
     (Name_ (RESOURCE_EXHAUSTED pb), 429);
     (Name_ (ABORTED pb), 409);
     (Name_ (RESOURCE_CONFLICT pb), 409);
     (Name_ (ALREADY_EXISTS pb), 409);
     (Name_ (NOT_FOUND pb), 404);
     (Name_ (ENDPOINT_NOT_FOUND pb), 404);
     (Name_ (RESOURCE_DOES_NOT_EXIST pb), 404);
     (Name_ (PERMISSION_DENIED pb), 403);
     (Name_ (CUSTOMER_UNAUTHORIZED pb), 401);
     (Name_ (UNAUTHENTICATED pb), 401);
     (Name_ (BAD_REQUEST pb), 400);
     (Name_ (RESOURCE_ALREADY_EXISTS pb), 400);
     (Name_ (INVALID_PARAMETER_VALUE pb), 400)] ;;
  Ok (dict_literal pystr_eqb kvs).

(** [{v: k for k, v in items}] followed by the three assignments, for the
    items in the order the iteration gives them. *)
Definition HTTP_STATUS_TO_ERROR_CODE_from (items : list (pystr * Z))
  : result (dict (K:=Z) (V:=pystr)) :=
  let d := fold_left (fun d kv => dict_set Z.eqb (snd kv) (fst kv) d)
                     items [] in
  n400 <- Name_ (BAD_REQUEST pb) ;;
  let d := dict_set Z.eqb 400 n400 d in
  n404 <- Name_ (ENDPOINT_NOT_FOUND pb) ;;
  let d := dict_set Z.eqb 404 n404 d in
  n500 <- Name_ (INTERNAL_ERROR pb) ;;
  Ok (dict_set Z.eqb 500 n500 d).

(** [ERROR_CODE_TO_HTTP_STATUS.items()] yields the entries in insertion
    order. *)
Definition HTTP_STATUS_TO_ERROR_CODE : result (dict (K:=Z) (V:=pystr)) :=
  tbl <- ERROR_CODE_TO_HTTP_STATUS ;; HTTP_STATUS_TO_ERROR_CODE_from tbl.

Definition get_error_code (http_status : Z) : result Z :=
  tbl <- HTTP_STATUS_TO_ERROR_CODE ;;
  default <- Name_ (INTERNAL_ERROR pb) ;;
  ErrorCode_Value (PyStr (dict_get_default Z.eqb tbl http_status default)).

(** The extras in [json_kwargs] are values of [pyval], which
    [json.dumps] encodes; an extra it has no encoding for (a set, an
    instance of a class), on which [serialize_as_json] raises
    [TypeError], is outside [pyval]. *)
Record MlflowException := mkMlflowException {
  error_code : pystr;
  message : pystr;
  json_kwargs : pydict
}.

(** [MlflowException.__init__(message, error_code=INTERNAL_ERROR,
    **kwargs)]; [None] for [error_code_] is the omitted argument. This is
    the body, on the parameters as Python has bound them;
    [MlflowException_call] below does the binding. *)
Definition MlflowException__init__ (message_ : pyval)
    (error_code_ : option pyval) (kwargs : pydict) : result MlflowException :=
  let arg :=
    match error_code_ with
    | Some c => c
    | None => PyInt (INTERNAL_ERROR pb)
    end in
  code <- match ErrorCode_Name arg with
          | Ok nm => Ok nm
          | Raise ValueError | Raise TypeError => Name_ (INTERNAL_ERROR pb)
          | Raise e => Raise e
          end ;;
  let message' := py_str message_ in
  Ok (mkMlflowException code message' kwargs).

(** The dictionary [serialize_as_json] builds before it prints it. *)
Definition exception_dict (self : MlflowException) : pydict :=
  let d :=
    dict_literal pystr_eqb
      [(u "error_code", PyStr (error_code self));
       (u "message", PyStr (message self))] in
  py_update d (json_kwargs self).

Definition serialize_as_json (self : MlflowException) : pystr :=
  json_dumps (PyDict (exception_dict self)).

Definition get_http_status_code (self : MlflowException) : result Z :=
  tbl <- ERROR_CODE_TO_HTTP_STATUS ;;
  Ok (dict_get_default pystr_eqb tbl (error_code self) 500).


(** The names of the parameters of [MlflowException.__init__]. *)
Definition is_parameter (k : pystr) : bool :=
  pystr_eqb k (u "self") || pystr_eqb k (u "message")
  || pystr_eqb k (u "error_code").

(** A call [MlflowException(a1, ..., k1=v1, ...)] with the positional
    arguments [args] and the keywords [keywords]: Python binds them to
    the parameters [(self, message, error_code=INTERNAL_ERROR, **kwargs)]
    and runs [__init__]. [self] is the new object, so a keyword [self]
    is a second value for it; [message] and [error_code] take the
    positional arguments in this order, or else the keyword of their
    name; a parameter given twice, a missing [message] and a third
    positional argument are [TypeError]s. [kwargs] receives the keywords
    that name no parameter, in their order. *)
Definition MlflowException_call (args : list pyval) (keywords : pydict)
  : result MlflowException :=
  let kwargs := filter (fun kv => negb (is_parameter (fst kv))) keywords in
  match py_get keywords (u "self") with
  | Some _ => Raise TypeError
  | None =>
      match args, py_get keywords (u "message"),
            py_get keywords (u "error_code") with
      | [], Some m, c => MlflowException__init__ m c kwargs
      | [m], None, c => MlflowException__init__ m c kwargs
      | [m; c], None, None => MlflowException__init__ m (Some c) kwargs
      | _, _, _ => Raise TypeError
      end
  end.


(** A [RestException] is an [MlflowException] with the response kept in
    [json]. *)
Record RestException := mkRestException {
  base : MlflowException;
  json : pydict
}.

Definition unrecognized_warning (error_code_ : pyval) : pystr :=
  u "Received error code not recognized by MLflow: "
    ++ py_str error_code_
    ++ u ", this may indicate your request hits error outside the MLflow server, e.g., proxy server, IP blocker or so.".

(** [RestException.__init__(json)], with the records it hands to
    [_logger]. *)
Definition RestException__init__ (json_ : pydict)
  : result (RestException * list LogRecord) :=
  default <- Name_ (INTERNAL_ERROR pb) ;;
  let error_code_ :=
    match py_get json_ (u "error_code") with
    | Some v => v
    | None => PyStr default
    end in
  let message_ :=
    py_str error_code_ ++ u ": "
      ++ match py_get json_ (u "message") with
         | Some m => py_str m
         | None => u "Response: " ++ py_str (PyDict json_)
         end in
  match (c <- ErrorCode_Value error_code_ ;;
         MlflowException__init__ (PyStr message_) (Some (PyInt c)) []) with
  | Ok e => Ok (mkRestException e json_, [])
  | Raise ValueError =>
      let log := mkLog (u "WARNING") (unrecognized_warning error_code_) in
      e <- MlflowException__init__ (PyStr message_) None [] ;;
      Ok (mkRestException e json_, [log])
  | Raise e => Raise e
  end.

(** [_UnsupportedMultipartUploadException.__init__()] *)
Definition _UnsupportedMultipartUploadException__init__
  : result MlflowException :=
  MlflowException__init__
    (PyStr (u "Multipart upload is not supported for the current artifact repository"))
    (Some (PyInt (NOT_IMPLEMENTED pb))) [].

End Exceptions.

(** The imports of [exceptions.py] succeed and the constants are the
    numbers of the enum values they are named after. *)
Definition imported (pb : databricks_pb2) : list (pystr * Z) :=
  [(u "ABORTED", ABORTED pb);
   (u "ALREADY_EXISTS", ALREADY_EXISTS pb);
   (u "BAD_REQUEST", BAD_REQUEST pb);
   (u "CANCELLED", CANCELLED pb);
   (u "CUSTOMER_UNAUTHORIZED", CUSTOMER_UNAUTHORIZED pb);
   (u "DATA_LOSS", DATA_LOSS pb);
   (u "DEADLINE_EXCEEDED", DEADLINE_EXCEEDED pb);
   (u "ENDPOINT_NOT_FOUND", ENDPOINT_NOT_FOUND pb);
   (u "INTERNAL_ERROR", INTERNAL_ERROR pb);
   (u "INVALID_PARAMETER_VALUE", INVALID_PARAMETER_VALUE pb);
   (u "INVALID_STATE", INVALID_STATE pb);
   (u "NOT_FOUND", NOT_FOUND pb);
   (u "NOT_IMPLEMENTED", NOT_IMPLEMENTED pb);
   (u "PERMISSION_DENIED", PERMISSION_DENIED pb);
   (u "REQUEST_LIMIT_EXCEEDED", REQUEST_LIMIT_EXCEEDED pb);
   (u "RESOURCE_ALREADY_EXISTS", RESOURCE_ALREADY_EXISTS pb);
   (u "RESOURCE_CONFLICT", RESOURCE_CONFLICT pb);
   (u "RESOURCE_DOES_NOT_EXIST", RESOURCE_DOES_NOT_EXIST pb);
   (u "RESOURCE_EXHAUSTED", RESOURCE_EXHAUSTED pb);
   (u "TEMPORARILY_UNAVAILABLE", TEMPORARILY_UNAVAILABLE pb);
   (u "UNAUTHENTICATED", UNAUTHENTICATED pb)].

Definition pb2_wf (pb : databricks_pb2) : bool :=
  forallb
    (fun nc =>
       match values_by_number (ErrorCode pb) (snd nc),
             values_by_name (ErrorCode pb) (fst nc) with
       | Some nm, Some k => pystr_eqb nm (fst nc) && (k =? snd nc)
       | _, _ => false
       end)
    (imported pb).

(** [v] is the number of a value of the enum ([True] and [False] are the
    integers 1 and 0). *)
Definition is_member (pb : databricks_pb2) (v : pyval) : bool :=
  let has z := existsb (fun nc => snd nc =? z) (ErrorCode pb) in
  match v with
  | PyInt z => has z
  | PyBool b => has (if b then 1 else 0)
  | _ => false
  end.

(** [nm] is the name of a value of the enum. *)
Definition is_name (pb : databricks_pb2) (nm : pystr) : bool :=
  existsb (fun nc => pystr_eqb (fst nc) nm) (ErrorCode pb).

(** A value that can be a dictionary key. *)
Definition hashable (v : pyval) : bool :=
  match v with
  | PyList _ | PyDict _ => false
  | _ => true
  end.

(** A well-formed dictionary has no repeated key. *)
Definition dict_ok {K V} (d : list (K * V)) : Prop := NoDup (map fst d).

(** An enumeration and constants satisfying [pb2_wf], to run the
    definitions on. *)
Definition sample_pb2 : databricks_pb2 :=
  {| ErrorCode :=
       [(u "INTERNAL_ERROR", 1); (u "TEMPORARILY_UNAVAILABLE", 2);
        (u "IO_ERROR", 3); (u "BAD_REQUEST", 4);
        (u "DEADLINE_EXCEEDED", 7); (u "CANCELLED", 8);
        (u "RESOURCE_EXHAUSTED", 9); (u "ABORTED", 10);
        (u "NOT_FOUND", 11); (u "ALREADY_EXISTS", 12);
        (u "UNAUTHENTICATED", 13);
        (u "INVALID_PARAMETER_VALUE", 1000);
        (u "ENDPOINT_NOT_FOUND", 1001); (u "MALFORMED_REQUEST", 1002);
        (u "INVALID_STATE", 1003); (u "PERMISSION_DENIED", 1004);
        (u "CUSTOMER_UNAUTHORIZED", 1006);
        (u "REQUEST_LIMIT_EXCEEDED", 1007);
        (u "RESOURCE_CONFLICT", 1008); (u "NOT_IMPLEMENTED", 1010);
        (u "DATA_LOSS", 1011); (u "RESOURCE_ALREADY_EXISTS", 3001);
        (u "RESOURCE_DOES_NOT_EXIST", 3002)];
     ABORTED := 10;
     ALREADY_EXISTS := 12;
     BAD_REQUEST := 4;
     CANCELLED := 8;
     CUSTOMER_UNAUTHORIZED := 1006;
     DATA_LOSS := 1011;
     DEADLINE_EXCEEDED := 7;
     ENDPOINT_NOT_FOUND := 1001;
     INTERNAL_ERROR := 1;
     INVALID_PARAMETER_VALUE := 1000;
     INVALID_STATE := 1003;
     NOT_FOUND := 11;
     NOT_IMPLEMENTED := 1010;
     PERMISSION_DENIED := 1004;
     REQUEST_LIMIT_EXCEEDED := 1007;
     RESOURCE_ALREADY_EXISTS := 3001;
     RESOURCE_CONFLICT := 1008;
     RESOURCE_DOES_NOT_EXIST := 3002;
     RESOURCE_EXHAUSTED := 9;
     TEMPORARILY_UNAVAILABLE := 2;
     UNAUTHENTICATED := 13 |}.

(** [repr] on values whose strings are printable ASCII without quotes or
    backslashes, to run the definitions on. *)
Fixpoint sample_repr (v : pyval) : pystr :=
  match v with
  | PyNone => u "None"
  | PyBool true => u "True"
  | PyBool false => u "False"
  | PyInt z => str_of_int z
  | PyStr s => u "'" ++ s ++ u "'"
  | PyList l => u "[" ++ join (u ", ") (map sample_repr l) ++ u "]"
  | PyDict d =>
      u "{"
        ++ join (u ", ")
             (map (fun kv =>
                     u "'" ++ fst kv ++ u "': " ++ sample_repr (snd kv)) d)
        ++ u "}"
  end.

(** A string literal with apostrophes standing for double quotes. *)
Definition uq (s : string) : pystr :=
  map (fun c => if (c =? 39)%N then 34%N else c) (u s).
Arguments uq s%_string.

(** ** The descriptor round trip *)

(** Modelled from the spec: [Model.to_dict] and [Model.from_dict] of
    [mlflow/models/model.py], which the tests call, are missing. Section 6
    of the specification lists the variant-specific keys of a serialized
    descriptor. *)
Inductive variant_key : Type :=
| flavors
| signature
| run_id
| model_uuid
| utc_time_created
| mlflow_version
| saved_input_example_info
| metadata
| resources
| prompts.


Definition key_name (k : variant_key) : pystr :=
  match k with
  | flavors => u "flavors"
  | signature => u "signature"
  | run_id => u "run_id"
  | model_uuid => u "model_uuid"
  | utc_time_created => u "utc_time_created"
  | mlflow_version => u "mlflow_version"
  | saved_input_example_info => u "saved_input_example_info"
  | metadata => u "metadata"
  | resources => u "resources"
  | prompts => u "prompts"
  end.

(** Modelled from the spec: a descriptor is the identity fields of a
    [Dataset] and the variant-specific fields, each absent ([None]) or
    holding a value. *)
Record Descriptor := mkDescriptor {
  dataset : Dataset;
  variant : variant_key -> option pyval
}.



(** Modelled from the spec: [from_dict] (missing). Loading requires the
    keys [digest], [source] and [source_type]; [None] is the parsing
    error. An optional key that is absent leaves its field [None]. *)
Definition from_dict (m : pydict) : option Descriptor :=
  match py_get m (u "digest"), py_get m (u "source"),
        py_get m (u "source_type") with
  | Some (PyStr dg), Some (PyStr src), Some (PyStr ty) =>
      let name_ :=
        match py_get m (u "name") with
        | Some (PyStr n) => Some n
        | _ => None
        end in
      Some (mkDescriptor
              (mkDataset name_ (Some (mkDatasetSource src ty)) dg)
              (fun k => py_get m (key_name k)))
  | _, _, _ => None
  end.

(** ** Auxiliary definitions of the statements *)

(** What [json.dumps] prints for the dictionary of [_compute_digest]. *)
Definition config_json (n s t : pystr) : pystr :=
  json_dumps
    (PyDict [(u "name", PyStr n); (u "source", PyStr s);
             (u "source_type", PyStr t)]).

(** The table of [ERROR_CODE_TO_HTTP_STATUS], by name. *)
Definition code_table : list (pystr * Z) :=
  [(u "INTERNAL_ERROR", 500); (u "INVALID_STATE", 500);
   (u "DATA_LOSS", 500); (u "NOT_IMPLEMENTED", 501);
   (u "TEMPORARILY_UNAVAILABLE", 503); (u "DEADLINE_EXCEEDED", 504);
   (u "REQUEST_LIMIT_EXCEEDED", 429); (u "CANCELLED", 499);
   (u "RESOURCE_EXHAUSTED", 429); (u "ABORTED", 409);
   (u "RESOURCE_CONFLICT", 409); (u "ALREADY_EXISTS", 409);
   (u "NOT_FOUND", 404); (u "ENDPOINT_NOT_FOUND", 404);
   (u "RESOURCE_DOES_NOT_EXIST", 404); (u "PERMISSION_DENIED", 403);
   (u "CUSTOMER_UNAUTHORIZED", 401); (u "UNAUTHENTICATED", 401);
   (u "BAD_REQUEST", 400); (u "RESOURCE_ALREADY_EXISTS", 400);
   (u "INVALID_PARAMETER_VALUE", 400)].

(** The table of [HTTP_STATUS_TO_ERROR_CODE] when the comprehension
    visits the entries in insertion order. *)
Definition status_table : list (Z * pystr) :=
  [(500, u "INTERNAL_ERROR"); (501, u "NOT_IMPLEMENTED");
   (503, u "TEMPORARILY_UNAVAILABLE"); (504, u "DEADLINE_EXCEEDED");
   (429, u "RESOURCE_EXHAUSTED"); (499, u "CANCELLED");
   (409, u "ALREADY_EXISTS"); (404, u "ENDPOINT_NOT_FOUND");
   (403, u "PERMISSION_DENIED"); (401, u "UNAUTHENTICATED");
   (400, u "BAD_REQUEST")].

(** The [error_code] entry of a response, with the default of [get]. *)
Definition response_code (json_ : pydict) : pyval :=
  match py_get json_ (u "error_code") with
  | Some v => v
  | None => PyStr (u "INTERNAL_ERROR")
  end.

(** The message [RestException.__init__] formats. *)
Definition response_message (py_repr : pyval -> pystr) (json_ : pydict)
  : pystr :=
  py_str py_repr (response_code json_) ++ u ": "
    ++ match py_get json_ (u "message") with
       | Some m => py_str py_repr m
       | None => u "Response: " ++ py_str py_repr (PyDict json_)
       end.

(** A lowercase hexadecimal digit. *)
Definition is_lower_hex (c : N) : bool :=
  ((48 <=? c) && (c <=? 57) || (97 <=? c) && (c <=? 102))%N.

(** A code point below 128. *)
Definition is_ascii (c : N) : Prop := (c < 128)%N.

(** The statuses that are keys of [HTTP_STATUS_TO_ERROR_CODE]. *)
Definition mapped_statuses : list Z :=
  [500; 501; 503; 504; 429; 499; 409; 404; 403; 401; 400].

(** The code [get_error_code] answers with, status by status. *)
Definition canonical_code (pb : databricks_pb2) (s : Z) : Z :=
  if s =? 500 then INTERNAL_ERROR pb
  else if s =? 501 then NOT_IMPLEMENTED pb
  else if s =? 503 then TEMPORARILY_UNAVAILABLE pb
  else if s =? 504 then DEADLINE_EXCEEDED pb
  else if s =? 429 then RESOURCE_EXHAUSTED pb
  else if s =? 499 then CANCELLED pb
  else if s =? 409 then ALREADY_EXISTS pb
  else if s =? 404 then ENDPOINT_NOT_FOUND pb
  else if s =? 403 then PERMISSION_DENIED pb
  else if s =? 401 then UNAUTHENTICATED pb
  else if s =? 400 then BAD_REQUEST pb
  else INTERNAL_ERROR pb.

(** A code point that is a Unicode scalar value: below [0x110000] and
    no surrogate. *)
Definition is_scalar (c : N) : bool :=
  ((c <? 55296) || ((57343 <? c) && (c <? 1114112)))%N.

(** The value of a lowercase hexadecimal digit, and of four of them. *)
Definition unhex (d : N) : N := (if d <? 58 then d - 48 else d - 87)%N.

Definition unhex4 (a b c d : N) : N :=
  (4096 * unhex a + 256 * unhex b + 16 * unhex c + unhex d)%N.

(** Reading back the first character of an escaped string: the inverse
    of [escape_char] on scalar values, used to show that escaping loses
    nothing. *)
Definition unescape1 (l : pystr) : option (N * pystr) :=
  match l with
  | [] => None
  | c0 :: r0 =>
      if (c0 =? 92)%N then
        match r0 with
        | [] => None
        | x :: r1 =>
            if (x =? 117)%N then
              match r1 with
              | a :: b :: c :: d :: r2 =>
                  let v := unhex4 a b c d in
                  if ((55296 <=? v) && (v <? 56320))%N then
                    match r2 with
                    | _ :: _ :: a' :: b' :: c' :: d' :: r3 =>
                        Some ((65536 + (v - 55296) * 1024
                               + (unhex4 a' b' c' d' - 56320))%N, r3)
                    | _ => None
                    end
                  else Some (v, r2)
              | _ => None
              end
            else if (x =? 98)%N then Some (8%N, r1)
            else if (x =? 102)%N then Some (12%N, r1)
            else if (x =? 110)%N then Some (10%N, r1)
            else if (x =? 114)%N then Some (13%N, r1)
            else if (x =? 116)%N then Some (9%N, r1)
            else Some (x, r1)
        end
      else Some (c0, r0)
  end.

(** * Properties *)

(** ** Test vectors *)

Example md5_empty :
  MD5.hexdigest [] = u "d41d8cd98f00b204e9800998ecf8427e".
Proof. vm_compute. reflexivity. Qed.

Example md5_abc :
  MD5.hexdigest (bytes_of (u "abc")) = u "900150983cd24fb0d6963f7d28e17f72".
Proof. vm_compute. reflexivity. Qed.

Example md5_two_blocks :
  MD5.hexdigest
    (bytes_of
       (u "12345678901234567890123456789012345678901234567890123456789012345678901234567890"))
  = u "57edf4a22be3c955ac49da2e2107b67a".
Proof. vm_compute. reflexivity. Qed.

Example json_dumps_nested :
  json_dumps
    (PyDict
       [(u "a", PyList [PyInt 1; PyInt (-2); PyNone; PyBool true;
                        PyDict [(u "b", PyList [])]]);
        (u "c", PyDict []); (u "d", PyInt 0)])
  = uq "{'a': [1, -2, null, true, {'b': []}], 'c': {}, 'd': 0}".
Proof. vm_compute. reflexivity. Qed.

Example digest_s3 :
  Dataset__init__
    (Some (mkDatasetSource (uq "{'uri': 's3://b/k'}") (u "s3"))) None None
  = Ok (mkDataset None
          (Some (mkDatasetSource (uq "{'uri': 's3://b/k'}") (u "s3")))
          (u "27f3d7d3")).
Proof. vm_compute. reflexivity. Qed.

Example digest_unicode_name :
  Dataset__init__ (Some (mkDatasetSource (u "a\b") (u "http")))
    (Some (u "caf" ++ [233; 128512; 10; 127]%N)) None
  = Ok (mkDataset (Some (u "caf" ++ [233; 128512; 10; 127]%N))
          (Some (mkDatasetSource (u "a\b") (u "http"))) (u "0dca6d65")).
Proof. vm_compute. reflexivity. Qed.

Example sample_pb2_wf : pb2_wf sample_pb2 = true.
Proof. vm_compute. reflexivity. Qed.

(** ** Strings and dictionaries *)

Lemma pystr_eqb_spec (a b : pystr) : pystr_eqb a b = true <-> a = b.
Proof.
  revert b; induction a as [|x a IH]; intros [|y b]; simpl;
    try (split; [discriminate | discriminate]); try tauto.
  rewrite andb_true_iff, N.eqb_eq, IH.
  split; [intros [-> ->]; reflexivity | intros E; inversion E; auto].
Qed.

Lemma pystr_eqb_refl (a : pystr) : pystr_eqb a a = true.
Proof. apply pystr_eqb_spec; reflexivity. Qed.

Section DictFacts.
Context {K V : Type} (eqb : K -> K -> bool).
Hypothesis eqb_spec : forall a b, eqb a b = true <-> a = b.

Lemma eqb_refl k : eqb k k = true.
Proof. apply eqb_spec; reflexivity. Qed.

Lemma eqb_neq a b : a <> b -> eqb a b = false.
Proof.
  intros N; destruct (eqb a b) eqn:E; [|reflexivity].
  apply eqb_spec in E; contradiction.
Qed.

Lemma dict_get_set_eq (k : K) (v : V) d :
  dict_get eqb (dict_set eqb k v d) k = Some v.
Proof.
  induction d as [|[k' v'] d IH]; simpl.
  - rewrite eqb_refl; reflexivity.
  - destruct (eqb k k') eqn:E; simpl; rewrite E; auto.
Qed.

Lemma dict_get_set_neq (k k' : K) (v : V) d :
  k' <> k -> dict_get eqb (dict_set eqb k v d) k' = dict_get eqb d k'.
Proof.
  intros N; induction d as [|[k0 v0] d IH]; simpl.
  - rewrite (eqb_neq _ _ N); reflexivity.
  - destruct (eqb k k0) eqn:E; simpl.
    + apply eqb_spec in E; subst k0.
      rewrite (eqb_neq _ _ N); reflexivity.
    + rewrite IH; reflexivity.
Qed.

Lemma dict_get_None d (k : K) :
  dict_get eqb d k = None <-> ~ In k (map (@fst K V) d).
Proof.
  induction d as [|[k0 v0] d IH]; simpl.
  - tauto.
  - destruct (eqb k k0) eqn:E.
    + apply eqb_spec in E; subst; split; [discriminate | tauto].
    + rewrite IH; split; [|tauto].
      intros H [E'|H']; [|tauto].
      subst; rewrite eqb_refl in E; discriminate.
Qed.

Lemma dict_set_keys (k : K) (v : V) d k' :
  In k' (map fst (dict_set eqb k v d)) <-> k' = k \/ In k' (map fst d).
Proof.
  induction d as [|[k0 v0] d IH]; simpl.
  - intuition.
  - destruct (eqb k k0) eqn:E; simpl.
    + apply eqb_spec in E; subst; intuition.
    + rewrite IH; intuition.
Qed.

Lemma dict_set_ok (k : K) (v : V) d :
  dict_ok d -> dict_ok (dict_set eqb k v d).
Proof.
  unfold dict_ok; induction d as [|[k0 v0] d IH]; simpl; intros H.
  - constructor; [simpl; tauto | constructor].
  - inversion H as [|? ? Hn Hd]; subst.
    destruct (eqb k k0) eqn:E; simpl.
    + constructor; assumption.
    + constructor; [|auto].
      rewrite dict_set_keys; intros [->|H']; [|contradiction].
      rewrite eqb_refl in E; discriminate.
Qed.

Lemma dict_update_ok d (e : list (K * V)) :
  dict_ok d -> dict_ok (dict_update eqb d e).
Proof.
  unfold dict_update; revert d; induction e as [|[k v] e IH]; simpl; auto.
  intros d H; apply IH, dict_set_ok, H.
Qed.

(** After [d.update(e)] a key of [e] has its value in [e], any other key
    keeps its value in [d]. *)
Lemma dict_get_update d (e : list (K * V)) k :
  dict_ok e ->
  dict_get eqb (dict_update eqb d e) k =
  match dict_get eqb e k with
  | Some v => Some v
  | None => dict_get eqb d k
  end.
Proof.
  unfold dict_update, dict_ok; revert d.
  induction e as [|[k0 v0] e IH]; simpl; intros d H; [reflexivity|].
  inversion H as [|? ? Hn Hd]; subst.
  rewrite (IH _ Hd).
  destruct (eqb k k0) eqn:E.
  - apply eqb_spec in E; subst k0.
    apply dict_get_None in Hn; rewrite Hn.
    apply dict_get_set_eq.
  - assert (k <> k0) by (intros ->; rewrite eqb_refl in E; discriminate).
    rewrite dict_get_set_neq by assumption; reflexivity.
Qed.

End DictFacts.

Lemma Z_eqb_spec (a b : Z) : (a =? b) = true <-> a = b.
Proof. apply Z.eqb_eq. Qed.

(** ** Digests *)

Lemma hex_digit_ascii (n : Z) :
  0 <= n < 16 -> (MD5.hex_digit n < 128)%N.
Proof.
  intros H; unfold MD5.hex_digit.
  destruct (n <? 10); lia.
Qed.

Lemma hex4_ascii (n : N) : Forall (fun c => (c < 128)%N) (hex4 n).
Proof.
  unfold hex4; repeat constructor;
    apply hex_digit_ascii, Z.mod_pos_bound; lia.
Qed.

Lemma u_escape_ascii (n : N) : Forall (fun c => (c < 128)%N) (u_escape n).
Proof.
  unfold u_escape; apply Forall_app; split;
    [repeat constructor; lia | apply hex4_ascii].
Qed.

Lemma escape_char_ascii (c : N) :
  Forall (fun c => (c < 128)%N) (escape_char c).
Proof.
  unfold escape_char.
  repeat match goal with
         | |- context [if (?a =? ?b)%N then _ else _] =>
             destruct (a =? b)%N; [repeat constructor; lia|]
         end.
  destruct ((32 <=? c)%N && (c <=? 126)%N) eqn:E.
  - apply andb_true_iff in E; destruct E as [_ E]; apply N.leb_le in E.
    repeat constructor; lia.
  - destruct (c <? 65536)%N; [apply u_escape_ascii|].
    apply Forall_app; split; apply u_escape_ascii.
Qed.

Lemma encode_basestring_ascii_ascii (s : pystr) :
  Forall (fun c => (c < 128)%N) (encode_basestring_ascii s).
Proof.
  unfold encode_basestring_ascii.
  apply Forall_app; split; [repeat constructor; lia|].
  apply Forall_app; split; [|repeat constructor; lia].
  induction s as [|c s IH]; simpl; [constructor|].
  apply Forall_app; split; [apply escape_char_ascii | exact IH].
Qed.

(** An ASCII string always encodes, to its own code points. *)
Lemma encode_utf8_ascii (s : pystr) :
  Forall (fun c => (c < 128)%N) s -> encode_utf8 s = Ok (bytes_of s).
Proof.
  induction 1 as [|c s Hc _ IH]; simpl; [reflexivity|].
  unfold utf8_char.
  replace (Z.of_N c <? 128) with true by (symmetry; apply Z.ltb_lt; lia).
  simpl; rewrite IH; reflexivity.
Qed.

Lemma ascii_literal (l : pystr) :
  forallb (fun c => (c <? 128)%N) l = true ->
  Forall (fun c => (c < 128)%N) l.
Proof.
  intros H; apply Forall_forall; intros c Hc.
  apply N.ltb_lt; revert c Hc; apply forallb_forall; exact H.
Qed.

Lemma Forall_app2 {A} (P : A -> Prop) (l1 l2 : list A) :
  Forall P l1 -> Forall P l2 -> Forall P (l1 ++ l2).
Proof. intros H1 H2; apply Forall_app; split; assumption. Qed.

Lemma config_json_ascii n s t :
  Forall (fun c => (c < 128)%N) (config_json n s t).
Proof.
  unfold config_json; cbn [json_dumps map join fst snd].
  repeat first
    [ apply encode_basestring_ascii_ascii
    | apply Forall_app2
    | apply ascii_literal; reflexivity ].
Qed.

Lemma hexdigest_length (m : list Z) : List.length (MD5.hexdigest m) = 32%nat.
Proof.
  unfold MD5.hexdigest, MD5.digest.
  generalize (MD5.blocks (List.length (MD5.pad m) / 64) MD5.init_state
                (MD5.pad m)).
  intros st; unfold MD5.bytes_of_word.
  cbn [app flat_map MD5.hex_byte List.length]; reflexivity.
Qed.

(** [_compute_digest] on a dataset that has a source: the first eight
    hexadecimal digits of the MD5 of the printed configuration. *)
Lemma _compute_digest_eq (self : Dataset) (src : DatasetSource) :
  source self = Some src ->
  _compute_digest self =
  Ok (firstn 8
        (MD5.hexdigest
           (bytes_of
              (config_json (name self) (to_json src)
                 (_get_source_type src))))).
Proof.
  intros H; unfold _compute_digest; rewrite H.
  change (encode_utf8 _) with
    (encode_utf8
       (config_json (name self) (to_json src) (_get_source_type src))).
  rewrite encode_utf8_ascii by apply config_json_ascii.
  reflexivity.
Qed.

Lemma firstn_8_hexdigest (m : list Z) :
  List.length (firstn 8 (MD5.hexdigest m)) = 8%nat.
Proof. rewrite length_firstn, hexdigest_length; reflexivity. Qed.

(** C1: for a dataset with a source, [_compute_digest] returns a string
    of length 8 that depends only on the name, the serialized source and
    the source type: any two datasets that agree on these three (in
    particular the same dataset, twice) get the same digest. *)
Theorem compute_digest_deterministic
    (self self' : Dataset) (src src' : DatasetSource) :
  source self = Some src ->
  source self' = Some src' ->
  name self = name self' ->
  to_json src = to_json src' ->
  _get_source_type src = _get_source_type src' ->
  exists h,
    _compute_digest self = Ok h /\ _compute_digest self' = Ok h
    /\ List.length h = 8%nat.
Proof.
  intros Hs Hs' Hn Hj Ht.
  rewrite (_compute_digest_eq self src Hs), (_compute_digest_eq self' src' Hs').
  rewrite Hn, Hj, Ht.
  eexists; repeat split; apply firstn_8_hexdigest.
Qed.

Lemma compute_digest_deterministic_witness :
  exists h,
    _compute_digest
      (mkDataset None (Some (mkDatasetSource (u "s3://b/k") (u "s3"))) [])
    = Ok h
    /\ _compute_digest
         (mkDataset (Some (u "dataset"))
            (Some (mkDatasetSource (u "s3://b/k") (u "s3"))) (u "0a1b2c3d"))
       = Ok h
    /\ List.length h = 8%nat.
Proof.
  apply (compute_digest_deterministic _ _
           (mkDatasetSource (u "s3://b/k") (u "s3"))
           (mkDatasetSource (u "s3://b/k") (u "s3"))); reflexivity.
Defined.

(** C9: a dataset constructed with [name=None] and a source has the name
    ["dataset"], and without a digest argument its digest is computed and
    has length 8; a supplied name is returned unchanged. *)
Theorem name_placeholder_and_digest_length :
  (forall src dg,
     exists d, Dataset__init__ (Some src) None dg = Ok d
               /\ name d = u "dataset")
  /\ (forall src,
        exists d, Dataset__init__ (Some src) None None = Ok d
                  /\ _compute_digest d = Ok (digest d)
                  /\ List.length (digest d) = 8%nat)
  /\ (forall src n dg,
        exists d, Dataset__init__ (Some src) (Some n) dg = Ok d
                  /\ name d = n).
Proof.
  assert (init_ok : forall src n dg,
             exists d, Dataset__init__ (Some src) n dg = Ok d
                       /\ _name d = n).
  { intros src n dg; unfold Dataset__init__.
    rewrite (_compute_digest_eq (mkDataset n (Some src) []) src eq_refl).
    destruct dg as [[|c r]|]; cbn [bind]; eexists; split; reflexivity. }
  split; [|split].
  - intros src dg; destruct (init_ok src None dg) as [d [E N]].
    exists d; split; [exact E|]; unfold name; rewrite N; reflexivity.
  - intros src; unfold Dataset__init__.
    rewrite (_compute_digest_eq (mkDataset None (Some src) []) src eq_refl).
    cbn [bind]; eexists; split; [reflexivity|]; split.
    + erewrite _compute_digest_eq by reflexivity; reflexivity.
    + apply firstn_8_hexdigest.
  - intros src n dg; destruct (init_ok src (Some n) dg) as [d [E N]].
    exists d; split; [exact E|]; unfold name; rewrite N; reflexivity.
Qed.

(** C7, as stated, fails: with a digest supplied, construction with an
    absent source succeeds. *)
Lemma init_absent_source_with_digest :
  Dataset__init__ None None (Some (u "0a1b2c3d"))
  = Ok (mkDataset None None (u "0a1b2c3d")).
Proof. reflexivity. Qed.

(** C7, amended: the constructor does not validate the source. With a
    non-empty digest it succeeds for every source, an absent one
    included, and keeps it as given; with an absent source and no digest
    (or an empty one) it raises the [AttributeError] of the digest
    computation. *)
Theorem init_does_not_validate_source (name_ : option pystr) :
  (forall source_ c r,
     Dataset__init__ source_ name_ (Some (c :: r))
     = Ok (mkDataset name_ source_ (c :: r)))
  /\ Dataset__init__ None name_ None = Raise AttributeError
  /\ Dataset__init__ None name_ (Some []) = Raise AttributeError.
Proof. repeat split. Qed.

(** ** The error-code enumeration *)

Lemma values_by_number_None vs z :
  existsb (fun nc : pystr * Z => snd nc =? z) vs = false ->
  values_by_number vs z = None.
Proof.
  induction vs as [|[nm k] vs IH]; simpl; [reflexivity|].
  destruct (k =? z); simpl; [discriminate | exact IH].
Qed.

Lemma values_by_number_is_name vs z nm :
  values_by_number vs z = Some nm ->
  existsb (fun nc : pystr * Z => pystr_eqb (fst nc) nm) vs = true.
Proof.
  induction vs as [|[nm' k] vs IH]; simpl; [discriminate|].
  destruct (k =? z).
  - intros E; inversion E; subst; rewrite pystr_eqb_refl; reflexivity.
  - intros E; rewrite (IH E); apply orb_true_r.
Qed.


Ltac in_imported :=
  unfold imported; repeat first [left; reflexivity | right].

Section ExceptionFacts.
Variable pb : databricks_pb2.
Variable py_repr : pyval -> pystr.
Hypothesis wf : pb2_wf pb = true.

Lemma imported_ok nm c :
  In (nm, c) (imported pb) ->
  Name_ pb c = Ok nm /\ ErrorCode_Value pb (PyStr nm) = Ok c.
Proof.
  intros H; unfold pb2_wf in wf.
  rewrite forallb_forall in wf; specialize (wf _ H); cbn [fst snd] in wf.
  unfold Name_, ErrorCode_Name, ErrorCode_Value.
  destruct (values_by_number (ErrorCode pb) c) as [nm'|]; [|discriminate].
  destruct (values_by_name (ErrorCode pb) nm) as [k|]; [|discriminate].
  apply andb_true_iff in wf; destruct wf as [E1 E2].
  apply pystr_eqb_spec in E1; apply Z.eqb_eq in E2; subst; auto.
Qed.

Lemma Name_imported nm c : In (nm, c) (imported pb) -> Name_ pb c = Ok nm.
Proof. intros H; apply imported_ok, H. Qed.

Lemma Value_imported nm c :
  In (nm, c) (imported pb) -> ErrorCode_Value pb (PyStr nm) = Ok c.
Proof. intros H; apply imported_ok, H. Qed.

Lemma Name_INTERNAL_ERROR : Name_ pb (INTERNAL_ERROR pb) = Ok (u "INTERNAL_ERROR").
Proof. apply Name_imported; in_imported. Qed.

Lemma ERROR_CODE_TO_HTTP_STATUS_eq :
  ERROR_CODE_TO_HTTP_STATUS pb = Ok code_table.
Proof.
  unfold ERROR_CODE_TO_HTTP_STATUS.
  repeat (erewrite Name_imported by in_imported).
  reflexivity.
Qed.

Lemma HTTP_STATUS_TO_ERROR_CODE_from_eq items :
  HTTP_STATUS_TO_ERROR_CODE_from pb items =
  Ok (dict_set Z.eqb 500 (u "INTERNAL_ERROR")
        (dict_set Z.eqb 404 (u "ENDPOINT_NOT_FOUND")
           (dict_set Z.eqb 400 (u "BAD_REQUEST")
              (fold_left
                 (fun d kv => dict_set Z.eqb (snd kv) (fst kv) d)
                 items [])))).
Proof.
  unfold HTTP_STATUS_TO_ERROR_CODE_from.
  repeat (erewrite Name_imported by in_imported).
  reflexivity.
Qed.

Lemma HTTP_STATUS_TO_ERROR_CODE_eq :
  HTTP_STATUS_TO_ERROR_CODE pb = Ok status_table.
Proof.
  unfold HTTP_STATUS_TO_ERROR_CODE.
  rewrite ERROR_CODE_TO_HTTP_STATUS_eq; cbn [bind].
  rewrite HTTP_STATUS_TO_ERROR_CODE_from_eq; reflexivity.
Qed.

Lemma ErrorCode_Name_is_name v nm :
  ErrorCode_Name pb v = Ok nm -> is_name pb nm = true.
Proof.
  unfold ErrorCode_Name, is_name; intros H.
  destruct v as [|b|z|s|l|d]; try discriminate.
  - destruct (values_by_number (ErrorCode pb) (if b then 1 else 0)) eqn:E;
      [|discriminate].
    inversion H; subst; eapply values_by_number_is_name, E.
  - destruct (values_by_number (ErrorCode pb) z) eqn:E; [|discriminate].
    inversion H; subst; eapply values_by_number_is_name, E.
Qed.

Lemma ErrorCode_Name_cases v :
  (exists nm, ErrorCode_Name pb v = Ok nm)
  \/ ErrorCode_Name pb v = Raise ValueError
  \/ ErrorCode_Name pb v = Raise TypeError.
Proof.
  unfold ErrorCode_Name; destruct v as [|b|z|s|l|d]; auto.
  - destruct (values_by_number _ _); eauto.
  - destruct (values_by_number _ _); eauto.
Qed.

Lemma ErrorCode_Name_not_member v :
  is_member pb v = false ->
  ErrorCode_Name pb v = Raise ValueError
  \/ ErrorCode_Name pb v = Raise TypeError.
Proof.
  unfold ErrorCode_Name, is_member; destruct v as [|b|z|s|l|d]; auto;
    intros H; rewrite (values_by_number_None _ _ H); auto.
Qed.

(** The constructor always returns: the code is the name of the argument
    when it has one, ["INTERNAL_ERROR"] otherwise; the message is
    [str(message)]. *)
Lemma MlflowException__init__eq msg code kw :
  MlflowException__init__ pb py_repr msg code kw =
  Ok (mkMlflowException
        match ErrorCode_Name pb
                match code with
                | Some c => c
                | None => PyInt (INTERNAL_ERROR pb)
                end with
        | Ok nm => nm
        | Raise _ => u "INTERNAL_ERROR"
        end
        (py_str py_repr msg) kw).
Proof.
  unfold MlflowException__init__.
  destruct (ErrorCode_Name_cases
              match code with
              | Some c => c
              | None => PyInt (INTERNAL_ERROR pb)
              end) as [[nm E]|[E|E]]; rewrite E; cbn [bind];
    try rewrite Name_INTERNAL_ERROR; reflexivity.
Qed.

End ExceptionFacts.

(** ** The two mappings *)

Lemma fold_set_ok (items : list (pystr * Z)) (d : list (Z * pystr)) :
  dict_ok d ->
  dict_ok (fold_left (fun d kv => dict_set Z.eqb (snd kv) (fst kv) d)
                     items d).
Proof.
  revert d; induction items as [|kv items IH]; simpl; intros d H; auto.
  apply IH, (dict_set_ok Z.eqb Z_eqb_spec), H.
Qed.

(** C2: whatever entries the comprehension visits and in whatever order,
    the status table has one code per status and maps 400 to BAD_REQUEST,
    404 to ENDPOINT_NOT_FOUND and 500 to INTERNAL_ERROR; [get_error_code]
    of a status that is not in the table is the INTERNAL_ERROR code; and
    the status of NOT_FOUND, 404, maps back to ENDPOINT_NOT_FOUND, which
    is not NOT_FOUND. *)
Theorem status_to_code_canonical
    (pb : databricks_pb2) (py_repr : pyval -> pystr)
    (d0 : list (Z * pystr)) (status : Z) :
  pb2_wf pb = true ->
  HTTP_STATUS_TO_ERROR_CODE pb = Ok d0 ->
  dict_get Z.eqb d0 status = None ->
  (forall items,
     exists d, HTTP_STATUS_TO_ERROR_CODE_from pb items = Ok d
               /\ dict_ok d
               /\ dict_get Z.eqb d 400 = Some (u "BAD_REQUEST")
               /\ dict_get Z.eqb d 404 = Some (u "ENDPOINT_NOT_FOUND")
               /\ dict_get Z.eqb d 500 = Some (u "INTERNAL_ERROR"))
  /\ (dict_ok d0
      /\ dict_get Z.eqb d0 400 = Some (u "BAD_REQUEST")
      /\ dict_get Z.eqb d0 404 = Some (u "ENDPOINT_NOT_FOUND")
      /\ dict_get Z.eqb d0 500 = Some (u "INTERNAL_ERROR"))
  /\ get_error_code pb status = Ok (INTERNAL_ERROR pb)
  /\ (forall msg kw,
        exists e,
          MlflowException__init__ pb py_repr msg
            (Some (PyInt (NOT_FOUND pb))) kw = Ok e
          /\ error_code e = u "NOT_FOUND"
          /\ get_http_status_code pb e = Ok 404)
  /\ get_error_code pb 404 = Ok (ENDPOINT_NOT_FOUND pb)
  /\ ENDPOINT_NOT_FOUND pb <> NOT_FOUND pb.
Proof.
  intros wf Hd0 Hnone.
  assert (Hfrom : forall items,
             exists d, HTTP_STATUS_TO_ERROR_CODE_from pb items = Ok d
               /\ dict_ok d
               /\ dict_get Z.eqb d 400 = Some (u "BAD_REQUEST")
               /\ dict_get Z.eqb d 404 = Some (u "ENDPOINT_NOT_FOUND")
               /\ dict_get Z.eqb d 500 = Some (u "INTERNAL_ERROR")).
  { intros items; rewrite (HTTP_STATUS_TO_ERROR_CODE_from_eq pb wf).
    eexists; split; [reflexivity|]; repeat split.
    - repeat apply (dict_set_ok Z.eqb Z_eqb_spec).
      apply fold_set_ok; constructor.
    - rewrite !(dict_get_set_neq Z.eqb Z_eqb_spec) by discriminate.
      apply (dict_get_set_eq Z.eqb Z_eqb_spec).
    - rewrite (dict_get_set_neq Z.eqb Z_eqb_spec) by discriminate.
      apply (dict_get_set_eq Z.eqb Z_eqb_spec).
    - apply (dict_get_set_eq Z.eqb Z_eqb_spec). }
  split; [exact Hfrom|].
  split.
  { unfold HTTP_STATUS_TO_ERROR_CODE in Hd0.
    rewrite (ERROR_CODE_TO_HTTP_STATUS_eq pb wf) in Hd0; cbn [bind] in Hd0.
    destruct (Hfrom code_table) as [d [E H]].
    rewrite E in Hd0; inversion Hd0; subst; exact H. }
  split.
  { unfold get_error_code; rewrite Hd0; cbn [bind].
    rewrite (Name_INTERNAL_ERROR pb wf); cbn [bind].
    unfold dict_get_default; rewrite Hnone.
    apply (Value_imported pb wf); in_imported. }
  split.
  { intros msg kw; rewrite (MlflowException__init__eq pb py_repr wf).
    eexists; split; [reflexivity|].
    assert (E : ErrorCode_Name pb (PyInt (NOT_FOUND pb)) = Ok (u "NOT_FOUND"))
      by (apply (Name_imported pb wf); in_imported).
    cbn [error_code]; rewrite E; split; [reflexivity|].
    unfold get_http_status_code.
    rewrite (ERROR_CODE_TO_HTTP_STATUS_eq pb wf); reflexivity. }
  split.
  { unfold get_error_code.
    rewrite (HTTP_STATUS_TO_ERROR_CODE_eq pb wf); cbn [bind].
    rewrite (Name_INTERNAL_ERROR pb wf); cbn [bind].
    change (dict_get_default Z.eqb status_table 404 (u "INTERNAL_ERROR"))
      with (u "ENDPOINT_NOT_FOUND").
    apply (Value_imported pb wf); in_imported. }
  intros E.
  assert (H1 : Name_ pb (ENDPOINT_NOT_FOUND pb) = Ok (u "ENDPOINT_NOT_FOUND"))
    by (apply (Name_imported pb wf); in_imported).
  assert (H2 : Name_ pb (NOT_FOUND pb) = Ok (u "NOT_FOUND"))
    by (apply (Name_imported pb wf); in_imported).
  rewrite E, H2 in H1; vm_compute in H1; discriminate.
Qed.

Lemma status_to_code_canonical_witness :
  (forall items,
     exists d, HTTP_STATUS_TO_ERROR_CODE_from sample_pb2 items = Ok d
               /\ dict_ok d
               /\ dict_get Z.eqb d 400 = Some (u "BAD_REQUEST")
               /\ dict_get Z.eqb d 404 = Some (u "ENDPOINT_NOT_FOUND")
               /\ dict_get Z.eqb d 500 = Some (u "INTERNAL_ERROR"))
  /\ get_error_code sample_pb2 418 = Ok 1
  /\ get_error_code sample_pb2 404 = Ok 1001.
Proof.
  destruct (status_to_code_canonical sample_pb2 sample_repr status_table 418
              eq_refl eq_refl eq_refl) as [H1 [_ [H2 [_ [H3 _]]]]].
  split; [exact H1 | split; [exact H2 | exact H3]].
Defined.

(** C5: [get_http_status_code] always returns a status; for the listed
    codes it is the status of the table, and for a code name that is not
    a key of [ERROR_CODE_TO_HTTP_STATUS] it is 500. *)
Theorem code_to_status_table
    (pb : databricks_pb2) (tbl : list (pystr * Z)) :
  pb2_wf pb = true ->
  ERROR_CODE_TO_HTTP_STATUS pb = Ok tbl ->
  forall (msg : pystr) (kw : pydict),
  let status nm := get_http_status_code pb (mkMlflowException nm msg kw) in
  (status (u "INTERNAL_ERROR") = Ok 500
   /\ status (u "NOT_IMPLEMENTED") = Ok 501
   /\ status (u "TEMPORARILY_UNAVAILABLE") = Ok 503
   /\ status (u "DEADLINE_EXCEEDED") = Ok 504
   /\ status (u "REQUEST_LIMIT_EXCEEDED") = Ok 429
   /\ status (u "RESOURCE_EXHAUSTED") = Ok 429
   /\ status (u "ABORTED") = Ok 409
   /\ status (u "RESOURCE_CONFLICT") = Ok 409
   /\ status (u "ALREADY_EXISTS") = Ok 409
   /\ status (u "NOT_FOUND") = Ok 404
   /\ status (u "ENDPOINT_NOT_FOUND") = Ok 404
   /\ status (u "RESOURCE_DOES_NOT_EXIST") = Ok 404
   /\ status (u "PERMISSION_DENIED") = Ok 403
   /\ status (u "CUSTOMER_UNAUTHORIZED") = Ok 401
   /\ status (u "UNAUTHENTICATED") = Ok 401
   /\ status (u "BAD_REQUEST") = Ok 400
   /\ status (u "RESOURCE_ALREADY_EXISTS") = Ok 400
   /\ status (u "INVALID_PARAMETER_VALUE") = Ok 400)
  /\ (forall nm, exists st, status nm = Ok st)
  /\ (forall nm, dict_get pystr_eqb tbl nm = None -> status nm = Ok 500).
Proof.
  intros wf Htbl msg kw status; subst status.
  unfold get_http_status_code; rewrite Htbl; cbn [bind error_code].
  rewrite (ERROR_CODE_TO_HTTP_STATUS_eq pb wf) in Htbl.
  inversion Htbl; subst tbl.
  split; [repeat split|split].
  - intros nm; eexists; reflexivity.
  - intros nm H; unfold dict_get_default; rewrite H; reflexivity.
Qed.

Lemma code_to_status_table_witness :
  get_http_status_code sample_pb2
    (mkMlflowException (u "RESOURCE_EXHAUSTED") (u "slow down") []) = Ok 429
  /\ get_http_status_code sample_pb2
       (mkMlflowException (u "IO_ERROR") (u "disk") []) = Ok 500.
Proof.
  destruct (code_to_status_table sample_pb2 code_table eq_refl eq_refl
              (u "slow down") []) as [H _].
  destruct (code_to_status_table sample_pb2 code_table eq_refl eq_refl
              (u "disk") []) as [_ [_ H']].
  split; [apply H | apply H'; reflexivity].
Defined.

(** C3: for every message and every [error_code] argument that is not
    the number of a value of the enumeration, whether some other integer
    or not an integer at all, the constructor returns an exception whose
    [error_code] is ["INTERNAL_ERROR"]. *)
Theorem invalid_code_falls_back
    (pb : databricks_pb2) (py_repr : pyval -> pystr)
    (msg code : pyval) (kw : pydict) :
  pb2_wf pb = true ->
  is_member pb code = false ->
  exists e,
    MlflowException__init__ pb py_repr msg (Some code) kw = Ok e
    /\ error_code e = u "INTERNAL_ERROR"
    /\ message e = py_str py_repr msg
    /\ json_kwargs e = kw.
Proof.
  intros wf H; rewrite (MlflowException__init__eq pb py_repr wf).
  eexists; split; [reflexivity|]; cbn [error_code message json_kwargs].
  destruct (ErrorCode_Name_not_member pb code H) as [E|E]; rewrite E;
    repeat split.
Qed.

Lemma invalid_code_falls_back_witness :
  (exists e,
     MlflowException__init__ sample_pb2 sample_repr (PyStr (u "boom"))
       (Some (PyInt 12345)) [] = Ok e
     /\ error_code e = u "INTERNAL_ERROR"
     /\ message e = u "boom"
     /\ json_kwargs e = [])
  /\ (exists e,
        MlflowException__init__ sample_pb2 sample_repr (PyInt 7)
          (Some (PyStr (u "NOT_FOUND"))) [] = Ok e
        /\ error_code e = u "INTERNAL_ERROR"
        /\ message e = u "7"
        /\ json_kwargs e = []).
Proof.
  split.
  - apply (invalid_code_falls_back sample_pb2 sample_repr (PyStr (u "boom"))
             (PyInt 12345) []); reflexivity.
  - apply (invalid_code_falls_back sample_pb2 sample_repr (PyInt 7)
             (PyStr (u "NOT_FOUND")) []); reflexivity.
Defined.

(** ** Exceptions built from a response *)

Lemma ErrorCode_Value_cases pb v :
  (exists k, ErrorCode_Value pb v = Ok k /\ hashable v = true)
  \/ (ErrorCode_Value pb v = Raise ValueError /\ hashable v = true)
  \/ (ErrorCode_Value pb v = Raise TypeError /\ hashable v = false).
Proof.
  unfold ErrorCode_Value; destruct v as [|b|z|s|l|d]; simpl; auto.
  destruct (values_by_name _ _); eauto.
Qed.

Section RestFacts.
Variable pb : databricks_pb2.
Variable py_repr : pyval -> pystr.
Hypothesis wf : pb2_wf pb = true.

(** [RestException.__init__] by the three outcomes of
    [ErrorCode.Value(error_code)]. *)
Lemma RestException__init__eq json_ :
  RestException__init__ pb py_repr json_ =
  match ErrorCode_Value pb (response_code json_) with
  | Ok k =>
      Ok (mkRestException
            (mkMlflowException
               match ErrorCode_Name pb (PyInt k) with
               | Ok nm => nm
               | Raise _ => u "INTERNAL_ERROR"
               end
               (response_message py_repr json_) [])
            json_, [])
  | Raise ValueError =>
      Ok (mkRestException
            (mkMlflowException (u "INTERNAL_ERROR")
               (response_message py_repr json_) [])
            json_,
          [mkLog (u "WARNING")
             (unrecognized_warning py_repr (response_code json_))])
  | Raise e => Raise e
  end.
Proof.
  unfold RestException__init__.
  rewrite (Name_INTERNAL_ERROR pb wf); cbn [bind].
  fold (response_code json_); fold (response_message py_repr json_).
  rewrite !(MlflowException__init__eq pb py_repr wf).
  change (ErrorCode_Name pb (PyInt (INTERNAL_ERROR pb)))
    with (Name_ pb (INTERNAL_ERROR pb)).
  rewrite (Name_INTERNAL_ERROR pb wf).
  destruct (ErrorCode_Value pb (response_code json_)) as [k|[]];
    cbn [bind py_str]; try reflexivity.
  rewrite (MlflowException__init__eq pb py_repr wf); reflexivity.
Qed.

End RestFacts.




(** C10: the constructor of [MlflowException] always returns, and the
    exception it returns has for [error_code] a name of the enumeration,
    the name of the code it was given or ["INTERNAL_ERROR"], and for
    [message] the [str] of its argument; so does every exception
    [RestException] and [_UnsupportedMultipartUploadException] build. *)
Theorem exception_fields_invariant
    (pb : databricks_pb2) (py_repr : pyval -> pystr) :
  pb2_wf pb = true ->
  (forall msg code kw,
     exists e,
       MlflowException__init__ pb py_repr msg code kw = Ok e
       /\ is_name pb (error_code e) = true
       /\ (ErrorCode_Name pb
             match code with
             | Some c => c
             | None => PyInt (INTERNAL_ERROR pb)
             end = Ok (error_code e)
           \/ error_code e = u "INTERNAL_ERROR")
       /\ message e = py_str py_repr msg)
  /\ (forall json_ r logs,
        RestException__init__ pb py_repr json_ = Ok (r, logs) ->
        is_name pb (error_code (base r)) = true
        /\ message (base r) = response_message py_repr json_)
  /\ (forall json_,
        hashable (response_code json_) = true ->
        exists r logs, RestException__init__ pb py_repr json_ = Ok (r, logs))
  /\ (exists e,
        _UnsupportedMultipartUploadException__init__ pb py_repr = Ok e
        /\ error_code e = u "NOT_IMPLEMENTED"
        /\ is_name pb (error_code e) = true).
Proof.
  intros wf.
  assert (IE : is_name pb (u "INTERNAL_ERROR") = true)
    by exact (ErrorCode_Name_is_name pb (PyInt (INTERNAL_ERROR pb)) _
                (Name_INTERNAL_ERROR pb wf)).
  assert (N : forall v,
             is_name pb
               match ErrorCode_Name pb v with
               | Ok nm => nm
               | Raise _ => u "INTERNAL_ERROR"
               end = true).
  { intros v; destruct (ErrorCode_Name pb v) eqn:E; [|exact IE].
    eapply ErrorCode_Name_is_name, E. }
  split; [|split; [|split]].
  - intros msg code kw; rewrite (MlflowException__init__eq pb py_repr wf).
    eexists; split; [reflexivity|]; cbn [error_code message].
    split; [apply N|]; split; [|reflexivity].
    destruct (ErrorCode_Name pb _); auto.
  - intros json_ r logs; rewrite (RestException__init__eq pb py_repr wf).
    destruct (ErrorCode_Value pb (response_code json_)) as [k|[]];
      try discriminate; intros E; injection E as Hr Hl; subst r logs;
      cbn [base error_code message];
      (split; [first [exact (N (PyInt k)) | exact IE] | reflexivity]).
  - intros json_ Hh; rewrite (RestException__init__eq pb py_repr wf).
    destruct (ErrorCode_Value_cases pb (response_code json_))
      as [[k [E _]]|[[E _]|[_ E]]]; [| |congruence];
      rewrite E; eauto.
  - unfold _UnsupportedMultipartUploadException__init__.
    rewrite (MlflowException__init__eq pb py_repr wf).
    assert (E : ErrorCode_Name pb (PyInt (NOT_IMPLEMENTED pb))
                = Ok (u "NOT_IMPLEMENTED"))
      by (apply (Name_imported pb wf); in_imported).
    eexists; split; [reflexivity|]; cbn [error_code]; rewrite E.
    split; [reflexivity|]; eapply ErrorCode_Name_is_name, E.
Qed.

Lemma exception_fields_invariant_witness :
  (exists e,
     MlflowException__init__ sample_pb2 sample_repr (PyInt 42)
       (Some (PyInt 9)) [] = Ok e
     /\ is_name sample_pb2 (error_code e) = true
     /\ message e = u "42")
  /\ (exists r logs,
        RestException__init__ sample_pb2 sample_repr
          [(u "error_code", PyStr (u "NOT_FOUND"));
           (u "message", PyStr (u "no such run"))] = Ok (r, logs)
        /\ is_name sample_pb2 (error_code (base r)) = true
        /\ message (base r) = u "NOT_FOUND: no such run").
Proof.
  destruct (exception_fields_invariant sample_pb2 sample_repr eq_refl)
    as [H1 [H2 [H3 _]]].
  split.
  - destruct (H1 (PyInt 42) (Some (PyInt 9)) []) as [e [E [Hn [_ Hm]]]].
    exists e; split; [exact E | split; [exact Hn | exact Hm]].
  - destruct (H3 [(u "error_code", PyStr (u "NOT_FOUND"));
                  (u "message", PyStr (u "no such run"))] eq_refl)
      as [r [logs E]].
    destruct (H2 _ r logs E) as [Hn Hm].
    exists r, logs; split; [exact E | split; [exact Hn | exact Hm]].
Defined.

(** ** Serialization of an exception *)

Lemma exception_dict_get (e : MlflowException) (k : pystr) :
  dict_ok (json_kwargs e) ->
  py_get (exception_dict e) k =
  match py_get (json_kwargs e) k with
  | Some v => Some v
  | None =>
      py_get [(u "error_code", PyStr (error_code e));
              (u "message", PyStr (message e))] k
  end.
Proof.
  intros H; unfold exception_dict, py_update, py_get.
  rewrite (dict_get_update pystr_eqb pystr_eqb_spec) by exact H.
  reflexivity.
Qed.

(** *** Calls of the constructor *)


Lemma py_get_kwargs_parameter (keywords : pydict) (k : pystr) :
  is_parameter k = true ->
  py_get (filter (fun kv => negb (is_parameter (fst kv))) keywords) k = None.
Proof.
  intros Hk; apply (dict_get_None pystr_eqb pystr_eqb_spec).
  rewrite in_map_iff; intros [[k' v] [E H]]; cbn [fst] in E; subst k'.
  apply filter_In in H; destruct H as [_ H]; cbn [fst] in H.
  rewrite Hk in H; discriminate.
Qed.

Lemma py_get_kwargs_other (keywords : pydict) (k : pystr) :
  is_parameter k = false ->
  py_get (filter (fun kv => negb (is_parameter (fst kv))) keywords) k
  = py_get keywords k.
Proof.
  intros Hk; unfold py_get.
  induction keywords as [|[k0 v0] d IH]; cbn [filter dict_get fst];
    [reflexivity|].
  destruct (is_parameter k0) eqn:E0; cbn [negb dict_get].
  - destruct (pystr_eqb k k0) eqn:E; [|exact IH].
    apply pystr_eqb_spec in E; subst k0; congruence.
  - rewrite IH; reflexivity.
Qed.

Lemma dict_ok_filter {V} (p : pystr * V -> bool) (d : list (pystr * V)) :
  dict_ok d -> dict_ok (filter p d).
Proof.
  unfold dict_ok; induction d as [|kv d IH]; cbn [filter map]; intros H;
    [constructor|].
  inversion H as [|? ? Hn Hd]; subst.
  destruct (p kv); cbn [map]; [constructor|]; auto.
  intros Hin; apply Hn.
  rewrite in_map_iff in *; destruct Hin as [x [E Hx]].
  exists x; split; [exact E|]; apply filter_In in Hx; tauto.
Qed.

(** Keywords that name no parameter are all bound to [**kwargs]. *)
Lemma kwargs_no_parameter (keywords : pydict) :
  existsb (fun kv => is_parameter (fst kv)) keywords = false ->
  filter (fun kv => negb (is_parameter (fst kv))) keywords = keywords
  /\ forall k, is_parameter k = true -> py_get keywords k = None.
Proof.
  intros H; split.
  - induction keywords as [|kv d IH]; cbn [filter existsb] in *;
      [reflexivity|].
    apply orb_false_iff in H; destruct H as [H1 H2].
    rewrite H1; cbn [negb]; rewrite IH by exact H2; reflexivity.
  - intros k Hk; apply (dict_get_None pystr_eqb pystr_eqb_spec).
    rewrite in_map_iff; intros [[k' v] [E Hin]]; cbn [fst] in E; subst k'.
    assert (T : existsb (fun kv => is_parameter (fst kv)) keywords = true)
      by (apply existsb_exists; exists (k, v); split; [exact Hin | exact Hk]).
    congruence.
Qed.


Section CallFacts.
Variable pb : databricks_pb2.
Variable py_repr : pyval -> pystr.
Hypothesis wf : pb2_wf pb = true.

(** A call that returns has run the body on some message and code, with
    the keywords that name no parameter for [kwargs]. *)
Lemma MlflowException_call_Ok args keywords e :
  MlflowException_call pb py_repr args keywords = Ok e ->
  json_kwargs e = filter (fun kv => negb (is_parameter (fst kv))) keywords
  /\ py_get keywords (u "self") = None
  /\ exists m c,
       MlflowException__init__ pb py_repr m c
         (filter (fun kv => negb (is_parameter (fst kv))) keywords) = Ok e.
Proof.
  unfold MlflowException_call.
  destruct (py_get keywords (u "self")); [discriminate|].
  destruct args as [|m [|c [|x r]]];
    destruct (py_get keywords (u "message")) as [m'|];
    destruct (py_get keywords (u "error_code")) as [c'|];
    try discriminate;
    intros E; (split; [|split; [reflexivity | eauto]]);
    rewrite (MlflowException__init__eq pb py_repr wf) in E;
    injection E as E; subst e; reflexivity.
Qed.

(** A parameter that has its positional argument refuses a keyword of
    its name. *)
Lemma MlflowException_call_twice args keywords :
  (args <> [] /\ py_get keywords (u "message") <> None)
  \/ ((2 <= List.length args)%nat
      /\ py_get keywords (u "error_code") <> None)
  \/ py_get keywords (u "self") <> None ->
  MlflowException_call pb py_repr args keywords = Raise TypeError.
Proof.
  unfold MlflowException_call.
  destruct (py_get keywords (u "self")); [reflexivity|].
  destruct args as [|m [|c [|x r]]];
    destruct (py_get keywords (u "message")) as [m'|];
    destruct (py_get keywords (u "error_code")) as [c'|];
    try reflexivity; cbn [List.length];
    intros [[H1 H2]|[[H1 H2]|H]]; try congruence; lia.
Qed.

(** With keywords that name no parameter, the positional arguments are
    the message and the code, and the keywords are the extras. *)
Lemma MlflowException_call_positional m c kw :
  existsb (fun kv => is_parameter (fst kv)) kw = false ->
  MlflowException_call pb py_repr [m] kw
  = MlflowException__init__ pb py_repr m None kw
  /\ MlflowException_call pb py_repr [m; c] kw
     = MlflowException__init__ pb py_repr m (Some c) kw.
Proof.
  intros Ex; destruct (kwargs_no_parameter kw Ex) as [Hf Hn].
  unfold MlflowException_call.
  rewrite (Hn (u "self") eq_refl), (Hn (u "message") eq_refl),
    (Hn (u "error_code") eq_refl), Hf; split; reflexivity.
Qed.




End CallFacts.

(** C4, as stated, fails: an extra passed at construction under the name
    [message] or [error_code] does not overwrite the reserved key. Beside
    a positional message the keyword [message] is refused; the keyword
    [error_code] is the parameter, not an extra: ["mine"] is no number of
    the enumeration, so the code printed is ["INTERNAL_ERROR"] and
    ["mine"] appears nowhere. *)
Lemma reserved_keyword_is_no_extra :
  MlflowException_call sample_pb2 sample_repr [PyStr (u "gone")]
    [(u "message", PyStr (u "other"))] = Raise TypeError
  /\ MlflowException_call sample_pb2 sample_repr [PyStr (u "gone")]
       [(u "error_code", PyStr (u "mine"))]
     = Ok (mkMlflowException (u "INTERNAL_ERROR") (u "gone") [])
  /\ serialize_as_json (mkMlflowException (u "INTERNAL_ERROR") (u "gone") [])
     = uq "{'error_code': 'INTERNAL_ERROR', 'message': 'gone'}".
Proof. vm_compute; repeat split. Qed.

(** C4, amended: for an exception that a call of the constructor
    returns, the extras are the keywords that name no parameter, so none
    is named [error_code] or [message]; the dictionary
    [serialize_as_json] prints binds [error_code] to the code name,
    [message] to the message and every extra key to its value, and has
    no other key. A call whose keywords name no parameter returns, with
    the keywords for extras; a keyword [message] or [error_code] beside
    the positional argument of that parameter makes the call raise
    [TypeError]. [serialize_as_json] itself lets an entry of
    [json_kwargs] win over a reserved key, for any exception object. The
    exception built from ["bad input"] and INVALID_PARAMETER_VALUE
    without extras prints as expected and has status 400. *)
Theorem serialize_as_json_contents
    (pb : databricks_pb2) (py_repr : pyval -> pystr) :
  pb2_wf pb = true ->
  (forall args keywords e,
     dict_ok keywords ->
     MlflowException_call pb py_repr args keywords = Ok e ->
     py_get (json_kwargs e) (u "error_code") = None
     /\ py_get (json_kwargs e) (u "message") = None
     /\ (forall k v,
           is_parameter k = false ->
           py_get keywords k = Some v ->
           py_get (json_kwargs e) k = Some v
           /\ py_get (exception_dict e) k = Some v)
     /\ serialize_as_json e = json_dumps (PyDict (exception_dict e))
     /\ dict_ok (exception_dict e)
     /\ py_get (exception_dict e) (u "error_code")
        = Some (PyStr (error_code e))
     /\ py_get (exception_dict e) (u "message") = Some (PyStr (message e))
     /\ (forall k,
           py_get (exception_dict e) k <> None ->
           k = u "error_code" \/ k = u "message"
           \/ (is_parameter k = false /\ py_get keywords k <> None)))
  /\ (forall m c kw,
        existsb (fun kv => is_parameter (fst kv)) kw = false ->
        exists e1 e2,
          MlflowException_call pb py_repr [m] kw = Ok e1
          /\ json_kwargs e1 = kw
          /\ MlflowException_call pb py_repr [m; c] kw = Ok e2
          /\ json_kwargs e2 = kw)
  /\ (forall m args keywords,
        py_get keywords (u "message") <> None ->
        MlflowException_call pb py_repr (m :: args) keywords
        = Raise TypeError)
  /\ (forall m c args keywords,
        py_get keywords (u "error_code") <> None ->
        MlflowException_call pb py_repr (m :: c :: args) keywords
        = Raise TypeError)
  /\ (forall e k v,
        dict_ok (json_kwargs e) ->
        py_get (json_kwargs e) k = Some v ->
        py_get (exception_dict e) k = Some v)
  /\ (exists e0,
        MlflowException_call pb py_repr [PyStr (u "bad input")]
          [(u "error_code", PyInt (INVALID_PARAMETER_VALUE pb))] = Ok e0
        /\ MlflowException_call pb py_repr
             [PyStr (u "bad input"); PyInt (INVALID_PARAMETER_VALUE pb)] []
           = Ok e0
        /\ json_kwargs e0 = []
        /\ serialize_as_json e0
           = uq "{'error_code': 'INVALID_PARAMETER_VALUE', 'message': 'bad input'}"
        /\ get_http_status_code pb e0 = Ok 400).
Proof.
  intros wf.
  split; [|split; [|split; [|split; [|split]]]].
  - intros args keywords e Hok Hcall.
    destruct (MlflowException_call_Ok pb py_repr wf _ _ _ Hcall)
      as [Hkw [_ _]].
    assert (Hd : dict_ok (json_kwargs e))
      by (rewrite Hkw; apply dict_ok_filter, Hok).
    assert (Hc : py_get (json_kwargs e) (u "error_code") = None)
      by (rewrite Hkw; apply py_get_kwargs_parameter; reflexivity).
    assert (Hm : py_get (json_kwargs e) (u "message") = None)
      by (rewrite Hkw; apply py_get_kwargs_parameter; reflexivity).
    split; [exact Hc|]; split; [exact Hm|].
    split.
    { intros k v Hk Hv.
      assert (Hj : py_get (json_kwargs e) k = Some v)
        by (rewrite Hkw, py_get_kwargs_other by exact Hk; exact Hv).
      split; [exact Hj|].
      rewrite exception_dict_get, Hj by exact Hd; reflexivity. }
    split; [reflexivity|].
    split.
    { unfold exception_dict, py_update.
      apply (dict_update_ok pystr_eqb pystr_eqb_spec).
      repeat constructor; simpl; intuition discriminate. }
    split; [rewrite exception_dict_get, Hc by exact Hd; reflexivity|].
    split; [rewrite exception_dict_get, Hm by exact Hd; reflexivity|].
    intros k; rewrite exception_dict_get by exact Hd.
    destruct (py_get (json_kwargs e) k) as [v|] eqn:Hj.
    + intros _; right; right.
      destruct (is_parameter k) eqn:Hk.
      * rewrite Hkw, py_get_kwargs_parameter in Hj by exact Hk.
        discriminate.
      * split; [reflexivity|].
        rewrite Hkw, py_get_kwargs_other in Hj by exact Hk; congruence.
    + unfold py_get; cbn [dict_get].
      destruct (pystr_eqb k (u "error_code")) eqn:E1.
      * apply pystr_eqb_spec in E1; auto.
      * destruct (pystr_eqb k (u "message")) eqn:E2.
        -- apply pystr_eqb_spec in E2; auto.
        -- intros N; exfalso; apply N; reflexivity.
  - intros m c kw Ex.
    destruct (MlflowException_call_positional pb py_repr m c kw Ex)
      as [E1 E2].
    rewrite E1, E2, !(MlflowException__init__eq pb py_repr wf).
    do 2 eexists; repeat split.
  - intros m args keywords H.
    apply MlflowException_call_twice; left; split; [discriminate | exact H].
  - intros m c args keywords H.
    apply MlflowException_call_twice; right; left.
    split; [cbn [List.length]; lia | exact H].
  - intros e k v Hd Hj.
    rewrite exception_dict_get, Hj by exact Hd; reflexivity.
  - assert (E : ErrorCode_Name pb (PyInt (INVALID_PARAMETER_VALUE pb))
                = Ok (u "INVALID_PARAMETER_VALUE"))
      by (apply (Name_imported pb wf); in_imported).
    exists (mkMlflowException (u "INVALID_PARAMETER_VALUE")
              (u "bad input") []).
    unfold MlflowException_call; cbn [py_get dict_get pystr_eqb u filter].
    split; [|split; [|split; [reflexivity|split]]].
    + change (MlflowException__init__ pb py_repr (PyStr (u "bad input"))
                (Some (PyInt (INVALID_PARAMETER_VALUE pb))) []
              = Ok (mkMlflowException (u "INVALID_PARAMETER_VALUE")
                      (u "bad input") [])).
      rewrite (MlflowException__init__eq pb py_repr wf), E; reflexivity.
    + rewrite (MlflowException__init__eq pb py_repr wf), E; reflexivity.
    + vm_compute; reflexivity.
    + unfold get_http_status_code.
      rewrite (ERROR_CODE_TO_HTTP_STATUS_eq pb wf); reflexivity.
Qed.

Lemma serialize_as_json_contents_witness :
  py_get
    (exception_dict
       (mkMlflowException (u "NOT_FOUND") (u "gone")
          [(u "run_id", PyStr (u "r1"))]))
    (u "run_id") = Some (PyStr (u "r1"))
  /\ py_get
       (exception_dict
          (mkMlflowException (u "NOT_FOUND") (u "gone")
             [(u "run_id", PyStr (u "r1"))]))
       (u "message") = Some (PyStr (u "gone"))
  /\ MlflowException_call sample_pb2 sample_repr
       [PyStr (u "gone"); PyInt 11; PyStr (u "x")]
       [(u "error_code", PyInt 4)] = Raise TypeError.
Proof.
  assert (ok : dict_ok [(u "error_code", PyInt 11);
                        (u "run_id", PyStr (u "r1"))]).
  { repeat constructor; simpl; intuition discriminate. }
  destruct (serialize_as_json_contents sample_pb2 sample_repr eq_refl)
    as [H [_ [_ [H2 _]]]].
  destruct (H [PyStr (u "gone")]
              [(u "error_code", PyInt 11); (u "run_id", PyStr (u "r1"))]
              (mkMlflowException (u "NOT_FOUND") (u "gone")
                 [(u "run_id", PyStr (u "r1"))])
              ok eq_refl)
    as [_ [_ [Hx [_ [_ [_ [Hm _]]]]]]].
  split; [apply (Hx (u "run_id")); reflexivity|].
  split; [exact Hm|].
  apply H2; discriminate.
Defined.

(** An entry put into [json_kwargs] under a reserved name, which no call
    of the constructor does, replaces the reserved value in the text. *)
Example serialize_with_extras :
  serialize_as_json
    (mkMlflowException (u "NOT_FOUND") (u "gone")
       [(u "run_id", PyStr (u "r1")); (u "message", PyStr (u "other"))])
  = uq "{'error_code': 'NOT_FOUND', 'message': 'other', 'run_id': 'r1'}".
Proof. vm_compute; reflexivity. Qed.

(** ** The descriptor round trip *)


Section VariantFold.
Variable f : variant_key -> option pyval.




End VariantFold.








(** As in [test_model_uuid]: without the [model_uuid] key, the loaded
    descriptor has no [model_uuid]. *)
Example from_dict_without_model_uuid :
  match
    from_dict
      (dict_pop pystr_eqb (u "model_uuid")
         [(u "name", PyStr (u "dataset")); (u "digest", PyStr (u "0a1b2c3d"));
          (u "source", PyStr (u "s3://b/k")); (u "source_type", PyStr (u "s3"));
          (u "run_id", PyStr (u "123")); (u "model_uuid", PyStr (u "5c1e"))])
  with
  | Some d => variant d model_uuid = None
              /\ variant d run_id = Some (PyStr (u "123"))
  | None => False
  end.
Proof. vm_compute; split; reflexivity. Qed.

(** * Further properties of the datasets *)

Lemma hex_digit_lower (n : Z) :
  0 <= n < 16 -> is_lower_hex (MD5.hex_digit n) = true.
Proof.
  intros H; unfold MD5.hex_digit, is_lower_hex.
  destruct (n <? 10) eqn:E.
  - apply Z.ltb_lt in E.
    replace ((48 <=? Z.to_N (48 + n))%N) with true
      by (symmetry; apply N.leb_le; lia).
    replace ((Z.to_N (48 + n) <=? 57)%N) with true
      by (symmetry; apply N.leb_le; lia).
    reflexivity.
  - apply Z.ltb_ge in E.
    replace ((97 <=? Z.to_N (87 + n))%N) with true
      by (symmetry; apply N.leb_le; lia).
    replace ((Z.to_N (87 + n) <=? 102)%N) with true
      by (symmetry; apply N.leb_le; lia).
    apply orb_true_r.
Qed.

Lemma hex_byte_lower (x : Z) :
  Forall (fun c => is_lower_hex c = true) (MD5.hex_byte (x mod 256)).
Proof.
  assert (0 <= x mod 256 < 256) by (apply Z.mod_pos_bound; lia).
  unfold MD5.hex_byte; repeat constructor; apply hex_digit_lower.
  - split; [apply Z.div_pos; lia | apply Z.div_lt_upper_bound; lia].
  - apply Z.mod_pos_bound; lia.
Qed.

Lemma hexdigest_lower (m : list Z) :
  Forall (fun c => is_lower_hex c = true) (MD5.hexdigest m).
Proof.
  unfold MD5.hexdigest, MD5.digest.
  generalize (MD5.blocks (List.length (MD5.pad m) / 64) MD5.init_state
                (MD5.pad m)).
  intros st; unfold MD5.bytes_of_word.
  cbn [app flat_map].
  repeat (apply Forall_app2; [apply hex_byte_lower|]).
  constructor.
Qed.

Lemma Forall_firstn_of {A} (P : A -> Prop) n (l : list A) :
  Forall P l -> Forall P (firstn n l).
Proof.
  intros H; revert n; induction H as [|x l Hx _ IH]; intros [|n]; simpl;
    constructor; auto.
Qed.

(** What [__init__] stores for a dataset that has a source. *)
Lemma Dataset__init__eq (src : DatasetSource) (n dg : option pystr) :
  Dataset__init__ (Some src) n dg =
  Ok (mkDataset n (Some src)
        match dg with
        | Some (c :: r) => c :: r
        | _ =>
            firstn 8
              (MD5.hexdigest
                 (bytes_of
                    (config_json (name (mkDataset n (Some src) []))
                       (to_json src) (_get_source_type src))))
        end).
Proof.
  unfold Dataset__init__.
  rewrite (_compute_digest_eq (mkDataset n (Some src) []) src eq_refl).
  destruct dg as [[|c r]|]; reflexivity.
Qed.

(** X1: construction with a source always succeeds and never stores an
    empty digest: a non-empty digest argument is kept as it is, and an
    empty one counts as omitted, so that the stored digest is then the
    computed one. *)
Theorem constructed_digest_never_empty
    (src : DatasetSource) (n dg : option pystr) :
  exists d,
    Dataset__init__ (Some src) n dg = Ok d
    /\ _name d = n /\ source d = Some src
    /\ digest d <> []
    /\ match dg with
       | Some (c :: r) => digest d = c :: r
       | _ => _compute_digest d = Ok (digest d)
              /\ Dataset__init__ (Some src) n None = Ok d
       end.
Proof.
  rewrite Dataset__init__eq.
  eexists; split; [reflexivity|].
  split; [reflexivity|]; split; [reflexivity|].
  cbn [digest _digest].
  assert (L : forall m, firstn 8 (MD5.hexdigest m) <> []).
  { intros m E; pose proof (firstn_8_hexdigest m) as H.
    rewrite E in H; discriminate. }
  destruct dg as [[|c r]|].
  - split; [apply L|]; split.
    + erewrite _compute_digest_eq by reflexivity; reflexivity.
    + rewrite Dataset__init__eq; reflexivity.
  - split; [discriminate | reflexivity].
  - split; [apply L|]; split.
    + erewrite _compute_digest_eq by reflexivity; reflexivity.
    + rewrite Dataset__init__eq; reflexivity.
Qed.

(** X2: the digest [_compute_digest] returns for a dataset with a source
    is made of lowercase hexadecimal digits. *)
Theorem computed_digest_is_lower_hex
    (n : option pystr) (src : DatasetSource) (dg : pystr) :
  exists h,
    _compute_digest (mkDataset n (Some src) dg) = Ok h
    /\ Forall (fun c => is_lower_hex c = true) h.
Proof.
  erewrite _compute_digest_eq by reflexivity.
  eexists; split; [reflexivity|].
  apply Forall_firstn_of, hexdigest_lower.
Qed.

(** X3: a dataset constructed without a name and one constructed with
    the name ["dataset"], from the same source and without a digest, are
    different objects with the same digest, the same [to_dict] and the
    same [to_json]. *)
Theorem placeholder_name_collides (src : DatasetSource) :
  exists d1 d2,
    Dataset__init__ (Some src) None None = Ok d1
    /\ Dataset__init__ (Some src) (Some (u "dataset")) None = Ok d2
    /\ d1 <> d2
    /\ digest d1 = digest d2
    /\ to_dict d1 = to_dict d2
    /\ Dataset_to_json d1 = Dataset_to_json d2.
Proof.
  rewrite !Dataset__init__eq.
  do 2 eexists; split; [reflexivity|]; split; [reflexivity|].
  split; [intros E; discriminate|].
  repeat split.
Qed.

(** X4: the dictionary of a dataset constructed without a digest holds
    the name, the stored digest, the serialized source and the source
    type, in this order, and its digest is the one [_compute_digest]
    gives for the name, source and source type the dictionary holds. *)
Theorem to_dict_digest_reproducible
    (src : DatasetSource) (n : option pystr) (any : pystr) :
  exists d nm dg,
    Dataset__init__ (Some src) n None = Ok d
    /\ to_dict d =
       Ok [(u "name", PyStr nm); (u "digest", PyStr dg);
           (u "source", PyStr (to_json src));
           (u "source_type", PyStr (_get_source_type src))]
    /\ _compute_digest
         (mkDataset (Some nm)
            (Some (mkDatasetSource (to_json src) (_get_source_type src)))
            any) = Ok dg.
Proof.
  rewrite Dataset__init__eq.
  do 3 eexists; split; [reflexivity|]; split; [reflexivity|].
  erewrite _compute_digest_eq by reflexivity.
  destruct n; reflexivity.
Qed.

(** X5: a dataset constructed with an absent source and a non-empty
    digest fails only later: [to_dict], [to_json] and [_compute_digest]
    raise [AttributeError], while [name] and [digest] still answer. *)
Theorem absent_source_fails_on_use (n : option pystr) (c : N) (r : pystr) :
  exists d,
    Dataset__init__ None n (Some (c :: r)) = Ok d
    /\ to_dict d = Raise AttributeError
    /\ Dataset_to_json d = Raise AttributeError
    /\ _compute_digest d = Raise AttributeError
    /\ digest d = c :: r
    /\ name d = match n with Some x => x | None => u "dataset" end.
Proof. eexists; repeat split. Qed.

(** ** [json.dumps] prints ASCII *)

Section PyvalInduction.
Variable P : pyval -> Prop.
Hypothesis HNone : P PyNone.
Hypothesis HBool : forall b, P (PyBool b).
Hypothesis HInt : forall z, P (PyInt z).
Hypothesis HStr : forall s, P (PyStr s).
Hypothesis HList : forall l, Forall P l -> P (PyList l).
Hypothesis HDict :
  forall d, Forall (fun kv : pystr * pyval => P (snd kv)) d -> P (PyDict d).

Lemma pyval_nested_ind : forall v, P v.
Proof.
  fix IH 1; intros [|b|z|s|l|d].
  - exact HNone.
  - apply HBool.
  - apply HInt.
  - apply HStr.
  - apply HList; induction l as [|x l IHl]; constructor;
      [apply IH | exact IHl].
  - apply HDict; induction d as [|[k x] d IHd]; constructor;
      [apply IH | exact IHd].
Qed.

End PyvalInduction.

Lemma join_ascii (sep : pystr) (l : list pystr) :
  Forall is_ascii sep -> Forall (Forall is_ascii) l ->
  Forall is_ascii (join sep l).
Proof.
  intros Hs H; induction H as [|x l Hx Hl IH]; [constructor|].
  destruct l as [|y l]; [exact Hx|].
  change (join sep (x :: y :: l)) with (x ++ sep ++ join sep (y :: l)).
  apply Forall_app2; [exact Hx|]; apply Forall_app2; assumption.
Qed.

Lemma string_of_uint_ascii (d : Decimal.uint) :
  Forall is_ascii (u (NilEmpty.string_of_uint d)).
Proof.
  induction d; simpl; constructor; try exact IHd; reflexivity.
Qed.

Lemma str_of_int_ascii (z : Z) : Forall is_ascii (str_of_int z).
Proof.
  unfold str_of_int, NilZero.string_of_int, NilZero.string_of_uint.
  destruct (Z.to_int z) as [d|d]; destruct d; simpl;
    repeat (constructor; [reflexivity|]);
    try apply string_of_uint_ascii; constructor.
Qed.

Lemma json_dumps_ascii (v : pyval) : Forall is_ascii (json_dumps v).
Proof.
  induction v as [|b|z|s|l IH|d IH] using pyval_nested_ind.
  - apply ascii_literal; reflexivity.
  - destruct b; apply ascii_literal; reflexivity.
  - apply str_of_int_ascii.
  - apply encode_basestring_ascii_ascii.
  - cbn [json_dumps].
    apply Forall_app2; [apply ascii_literal; reflexivity|].
    apply Forall_app2; [|apply ascii_literal; reflexivity].
    apply join_ascii; [apply ascii_literal; reflexivity|].
    induction IH; cbn [map]; constructor; auto.
  - cbn [json_dumps].
    apply Forall_app2; [apply ascii_literal; reflexivity|].
    apply Forall_app2; [|apply ascii_literal; reflexivity].
    apply join_ascii; [apply ascii_literal; reflexivity|].
    induction IH as [|kv d Hkv _ IHd]; cbn [map]; constructor; auto.
    apply Forall_app2; [apply encode_basestring_ascii_ascii|].
    apply Forall_app2; [apply ascii_literal; reflexivity | exact Hkv].
Qed.

(** X6: [to_json] of a dataset with a source returns an ASCII string,
    whatever characters the name and the source hold, and its UTF-8
    encoding is the string itself, byte for character. *)
Theorem to_json_is_ascii
    (n : option pystr) (src : DatasetSource) (dg : pystr) :
  exists s,
    Dataset_to_json (mkDataset n (Some src) dg) = Ok s
    /\ Forall is_ascii s
    /\ encode_utf8 s = Ok (bytes_of s).
Proof.
  unfold Dataset_to_json, to_dict; cbn [source _source bind].
  eexists; split; [reflexivity|].
  split; [|apply encode_utf8_ascii]; apply json_dumps_ascii.
Qed.

(** X7: for an exception whose extras are values [json.dumps] encodes
    ([None], booleans, integers, strings, lists and dictionaries of
    these, the values of [pyval]), [serialize_as_json] returns an ASCII
    string, whatever characters the message, the extra keys and the
    strings among the extra values hold. *)
Theorem serialize_as_json_is_ascii (e : MlflowException) :
  Forall is_ascii (serialize_as_json e)
  /\ encode_utf8 (serialize_as_json e) = Ok (bytes_of (serialize_as_json e)).
Proof.
  split; [|apply encode_utf8_ascii]; apply json_dumps_ascii.
Qed.

(** * Further properties of the exceptions *)

Section MappingFacts.
Variable pb : databricks_pb2.
Variable py_repr : pyval -> pystr.
Hypothesis wf : pb2_wf pb = true.

Lemma get_error_code_eq (s : Z) :
  get_error_code pb s = Ok (canonical_code pb s).
Proof.
  unfold get_error_code.
  rewrite (HTTP_STATUS_TO_ERROR_CODE_eq pb wf); cbn [bind].
  rewrite (Name_INTERNAL_ERROR pb wf); cbn [bind].
  unfold dict_get_default, status_table, canonical_code; cbn [dict_get].
  repeat match goal with
         | |- context [if (s =? ?k) then _ else _] =>
             destruct (s =? k);
             [apply (Value_imported pb wf); in_imported|]
         end.
  apply (Value_imported pb wf); in_imported.
Qed.

(** An exception constructed with an imported constant has the name of
    the constant and the status the table gives this name. *)
Lemma constructed_status nm c msg kw :
  In (nm, c) (imported pb) ->
  exists st,
    dict_get pystr_eqb code_table nm = Some st
    /\ MlflowException__init__ pb py_repr msg (Some (PyInt c)) kw
       = Ok (mkMlflowException nm (py_str py_repr msg) kw)
    /\ get_http_status_code pb
         (mkMlflowException nm (py_str py_repr msg) kw) = Ok st.
Proof.
  intros H.
  assert (E : ErrorCode_Name pb (PyInt c) = Ok nm)
    by (apply (Name_imported pb wf), H).
  rewrite (MlflowException__init__eq pb py_repr wf), E.
  unfold get_http_status_code.
  rewrite (ERROR_CODE_TO_HTTP_STATUS_eq pb wf); cbn [bind error_code].
  unfold dict_get_default.
  unfold imported in H; cbn [In] in H.
  repeat (destruct H as [H|H];
          [injection H as <- <-; eexists; split; [reflexivity|];
           split; reflexivity|]).
  contradiction.
Qed.

(** The status of the exception constructed with [get_error_code s]. *)
Lemma status_round_trip_aux s msg kw :
  exists e,
    MlflowException__init__ pb py_repr msg
      (Some (PyInt (canonical_code pb s))) kw = Ok e
    /\ get_http_status_code pb e
       = Ok (if existsb (Z.eqb s) mapped_statuses then s else 500).
Proof.
  unfold canonical_code, mapped_statuses; cbn [existsb].
  repeat match goal with
         | |- context [if (s =? ?k) then _ else _] =>
             destruct (Z.eqb_spec s k) as [->|_]
         end;
    cbn [orb];
    match goal with
    | |- exists e, MlflowException__init__ _ _ _ (Some (PyInt ?c)) _ = _ /\ _ =>
        let H := fresh in
        epose proof (constructed_status _ c msg kw ltac:(in_imported))
          as H;
        destruct H as [st [H1 [H2 H3]]];
        eexists; split; [exact H2|];
        rewrite H3; vm_compute in H1; injection H1 as <-; reflexivity
    end.
Qed.

End MappingFacts.

(** X8: [get_error_code] never raises. The keys of
    [HTTP_STATUS_TO_ERROR_CODE] are eleven statuses, and the code of a
    status is: 500 INTERNAL_ERROR, 501 NOT_IMPLEMENTED, 503
    TEMPORARILY_UNAVAILABLE, 504 DEADLINE_EXCEEDED, 429
    RESOURCE_EXHAUSTED, 499 CANCELLED, 409 ALREADY_EXISTS, 404
    ENDPOINT_NOT_FOUND, 403 PERMISSION_DENIED, 401 UNAUTHENTICATED, 400
    BAD_REQUEST, and INTERNAL_ERROR for every other status. *)
Theorem get_error_code_table (pb : databricks_pb2) :
  pb2_wf pb = true ->
  (exists d, HTTP_STATUS_TO_ERROR_CODE pb = Ok d
             /\ map fst d = mapped_statuses)
  /\ forall s, get_error_code pb s = Ok (canonical_code pb s).
Proof.
  intros wf; split.
  - rewrite (HTTP_STATUS_TO_ERROR_CODE_eq pb wf).
    eexists; split; reflexivity.
  - apply (get_error_code_eq pb wf).
Qed.

Lemma get_error_code_table_witness :
  get_error_code sample_pb2 429 = Ok 9
  /\ get_error_code sample_pb2 200 = Ok 1.
Proof.
  destruct (get_error_code_table sample_pb2 eq_refl) as [_ H].
  split; apply H.
Defined.

(** X9: from a status to its code and back: the exception constructed
    with [get_error_code s] has the status [s] when [s] is one of the
    eleven statuses of the table, and 500 otherwise. *)
Theorem status_code_status_round_trip
    (pb : databricks_pb2) (py_repr : pyval -> pystr)
    (s : Z) (msg : pyval) (kw : pydict) :
  pb2_wf pb = true ->
  exists c e,
    get_error_code pb s = Ok c
    /\ MlflowException__init__ pb py_repr msg (Some (PyInt c)) kw = Ok e
    /\ get_http_status_code pb e
       = Ok (if existsb (Z.eqb s) mapped_statuses then s else 500).
Proof.
  intros wf.
  destruct (status_round_trip_aux pb py_repr wf s msg kw) as [e [H1 H2]].
  exists (canonical_code pb s), e.
  split; [apply (get_error_code_eq pb wf) | split; assumption].
Qed.

Lemma status_code_status_round_trip_witness :
  exists c e,
    get_error_code sample_pb2 409 = Ok c
    /\ MlflowException__init__ sample_pb2 sample_repr (PyStr (u "busy"))
         (Some (PyInt c)) [] = Ok e
    /\ get_http_status_code sample_pb2 e = Ok 409.
Proof.
  exact (status_code_status_round_trip sample_pb2 sample_repr 409
           (PyStr (u "busy")) [] eq_refl).
Defined.

(** X10: every status [get_http_status_code] returns, for an exception
    with any [error_code] whatever, is a key of
    [HTTP_STATUS_TO_ERROR_CODE], and the exception constructed with the
    code of this status has the same status again. *)
Theorem every_status_maps_back
    (pb : databricks_pb2) (py_repr : pyval -> pystr)
    (e : MlflowException) (msg : pyval) (kw : pydict) :
  pb2_wf pb = true ->
  exists st c e',
    get_http_status_code pb e = Ok st
    /\ In st mapped_statuses
    /\ get_error_code pb st = Ok c
    /\ MlflowException__init__ pb py_repr msg (Some (PyInt c)) kw = Ok e'
    /\ get_http_status_code pb e' = Ok st.
Proof.
  intros wf.
  assert (Hst : exists st,
             get_http_status_code pb e = Ok st
             /\ existsb (Z.eqb st) mapped_statuses = true).
  { unfold get_http_status_code.
    rewrite (ERROR_CODE_TO_HTTP_STATUS_eq pb wf); cbn [bind].
    unfold dict_get_default, code_table; cbn [dict_get].
    repeat match goal with
           | |- context [if pystr_eqb ?a ?b then _ else _] =>
               destruct (pystr_eqb a b);
               [eexists; split; reflexivity|]
           end.
    eexists; split; reflexivity. }
  destruct Hst as [st [Hst Hin]].
  destruct (status_round_trip_aux pb py_repr wf st msg kw) as [e' [H1 H2]].
  rewrite Hin in H2.
  exists st, (canonical_code pb st), e'.
  split; [exact Hst|]; split.
  - apply existsb_exists in Hin; destruct Hin as [x [Hx E]].
    apply Z.eqb_eq in E; subst x; exact Hx.
  - split; [apply (get_error_code_eq pb wf) | split; assumption].
Qed.

Lemma every_status_maps_back_witness :
  exists st c e',
    get_http_status_code sample_pb2
      (mkMlflowException (u "RESOURCE_CONFLICT") (u "x") []) = Ok st
    /\ In st mapped_statuses
    /\ get_error_code sample_pb2 st = Ok c
    /\ MlflowException__init__ sample_pb2 sample_repr (PyStr (u "y"))
         (Some (PyInt c)) [] = Ok e'
    /\ get_http_status_code sample_pb2 e' = Ok st.
Proof.
  exact (every_status_maps_back sample_pb2 sample_repr
           (mkMlflowException (u "RESOURCE_CONFLICT") (u "x") [])
           (PyStr (u "y")) [] eq_refl).
Defined.

(** X11: an exception constructed with any of the twenty-one imported
    code constants keeps the name of the constant, and this name is a key
    of [ERROR_CODE_TO_HTTP_STATUS]: its status comes from the table, never
    from the default of [get]. *)
Theorem imported_codes_have_status
    (pb : databricks_pb2) (py_repr : pyval -> pystr)
    (nm : pystr) (c : Z) (msg : pyval) (kw : pydict) :
  pb2_wf pb = true ->
  In (nm, c) (imported pb) ->
  exists e tbl st,
    MlflowException__init__ pb py_repr msg (Some (PyInt c)) kw = Ok e
    /\ error_code e = nm
    /\ message e = py_str py_repr msg
    /\ json_kwargs e = kw
    /\ ERROR_CODE_TO_HTTP_STATUS pb = Ok tbl
    /\ dict_get pystr_eqb tbl nm = Some st
    /\ get_http_status_code pb e = Ok st.
Proof.
  intros wf H.
  destruct (constructed_status pb py_repr wf nm c msg kw H)
    as [st [H1 [H2 H3]]].
  exists (mkMlflowException nm (py_str py_repr msg) kw), code_table, st.
  split; [exact H2|]; repeat (split; [reflexivity|]).
  split; [apply (ERROR_CODE_TO_HTTP_STATUS_eq pb wf)|].
  split; assumption.
Qed.

Lemma imported_codes_have_status_witness :
  exists e tbl st,
    MlflowException__init__ sample_pb2 sample_repr (PyStr (u "lost"))
      (Some (PyInt 1011)) [] = Ok e
    /\ error_code e = u "DATA_LOSS"
    /\ message e = u "lost"
    /\ json_kwargs e = []
    /\ ERROR_CODE_TO_HTTP_STATUS sample_pb2 = Ok tbl
    /\ dict_get pystr_eqb tbl (u "DATA_LOSS") = Some st
    /\ get_http_status_code sample_pb2 e = Ok st.
Proof.
  apply (imported_codes_have_status sample_pb2 sample_repr (u "DATA_LOSS")
           1011 (PyStr (u "lost")) [] eq_refl).
  unfold imported; cbn; tauto.
Defined.



(** ** Exceptions built from a response, continued *)

Lemma rest_exception_known_code_aux
    (pb : databricks_pb2) (py_repr : pyval -> pystr)
    (json_ : pydict) (nm : pystr) (c : Z) (m : pyval) :
  pb2_wf pb = true ->
  In (nm, c) (imported pb) ->
  py_get json_ (u "error_code") = Some (PyStr nm) ->
  py_get json_ (u "message") = Some m ->
  RestException__init__ pb py_repr json_
  = Ok (mkRestException
          (mkMlflowException nm (nm ++ u ": " ++ py_str py_repr m) [])
          json_, []).
Proof.
  intros wf H Hc Hm.
  rewrite (RestException__init__eq pb py_repr wf).
  unfold response_message, response_code; rewrite Hc, Hm.
  rewrite (Value_imported pb wf nm c H).
  change (ErrorCode_Name pb (PyInt c)) with (Name_ pb c).
  rewrite (Name_imported pb wf nm c H).
  reflexivity.
Qed.

(** X13: a response whose [error_code] is the name of one of the imported
    codes gives an exception with this code, the message ["<code>:
    <message>"] and no extras, keeps the response in [json], logs
    nothing, and has the status the table gives the code. *)
Theorem rest_exception_keeps_known_code
    (pb : databricks_pb2) (py_repr : pyval -> pystr)
    (json_ : pydict) (nm : pystr) (c : Z) (m : pyval) :
  pb2_wf pb = true ->
  In (nm, c) (imported pb) ->
  py_get json_ (u "error_code") = Some (PyStr nm) ->
  py_get json_ (u "message") = Some m ->
  RestException__init__ pb py_repr json_
  = Ok (mkRestException
          (mkMlflowException nm (nm ++ u ": " ++ py_str py_repr m) [])
          json_, [])
  /\ exists tbl st,
       ERROR_CODE_TO_HTTP_STATUS pb = Ok tbl
       /\ dict_get pystr_eqb tbl nm = Some st
       /\ get_http_status_code pb
            (mkMlflowException nm (nm ++ u ": " ++ py_str py_repr m) [])
          = Ok st.
Proof.
  intros wf H Hc Hm.
  split; [apply (rest_exception_known_code_aux pb py_repr json_ nm c m);
          assumption|].
  destruct (constructed_status pb py_repr wf nm c
              (PyStr (nm ++ u ": " ++ py_str py_repr m)) [] H)
    as [st [H1 [_ H3]]].
  exists code_table, st.
  split; [apply (ERROR_CODE_TO_HTTP_STATUS_eq pb wf)|].
  split; [exact H1 | exact H3].
Qed.

Lemma rest_exception_keeps_known_code_witness :
  RestException__init__ sample_pb2 sample_repr
    [(u "error_code", PyStr (u "RESOURCE_DOES_NOT_EXIST"));
     (u "message", PyStr (u "no run"))]
  = Ok (mkRestException
          (mkMlflowException (u "RESOURCE_DOES_NOT_EXIST")
             (u "RESOURCE_DOES_NOT_EXIST: no run") [])
          [(u "error_code", PyStr (u "RESOURCE_DOES_NOT_EXIST"));
           (u "message", PyStr (u "no run"))], []).
Proof.
  apply (rest_exception_keeps_known_code sample_pb2 sample_repr
           [(u "error_code", PyStr (u "RESOURCE_DOES_NOT_EXIST"));
            (u "message", PyStr (u "no run"))]
           (u "RESOURCE_DOES_NOT_EXIST") 3002 (PyStr (u "no run")) eq_refl);
    [unfold imported; cbn; tauto | reflexivity | reflexivity].
Defined.

(** X14: a response without an [error_code] key gives the code
    INTERNAL_ERROR and a message that starts with ["INTERNAL_ERROR: "];
    the default is a recognized code, so nothing is logged; the status
    is 500. *)
Theorem rest_exception_without_code
    (pb : databricks_pb2) (py_repr : pyval -> pystr) (json_ : pydict) :
  pb2_wf pb = true ->
  py_get json_ (u "error_code") = None ->
  exists rest,
    RestException__init__ pb py_repr json_
    = Ok (mkRestException
            (mkMlflowException (u "INTERNAL_ERROR")
               (u "INTERNAL_ERROR: " ++ rest) [])
            json_, [])
    /\ rest = match py_get json_ (u "message") with
              | Some m => py_str py_repr m
              | None => u "Response: " ++ py_str py_repr (PyDict json_)
              end
    /\ get_http_status_code pb
         (mkMlflowException (u "INTERNAL_ERROR")
            (u "INTERNAL_ERROR: " ++ rest) []) = Ok 500.
Proof.
  intros wf Hc.
  rewrite (RestException__init__eq pb py_repr wf).
  unfold response_message, response_code; rewrite Hc.
  rewrite (Value_imported pb wf (u "INTERNAL_ERROR") (INTERNAL_ERROR pb))
    by in_imported.
  change (ErrorCode_Name pb (PyInt (INTERNAL_ERROR pb)))
    with (Name_ pb (INTERNAL_ERROR pb)).
  rewrite (Name_INTERNAL_ERROR pb wf).
  eexists; split; [reflexivity|]; split; [reflexivity|].
  unfold get_http_status_code.
  rewrite (ERROR_CODE_TO_HTTP_STATUS_eq pb wf); reflexivity.
Qed.

Lemma rest_exception_without_code_witness :
  exists rest,
    RestException__init__ sample_pb2 sample_repr
      [(u "message", PyStr (u "oops"))]
    = Ok (mkRestException
            (mkMlflowException (u "INTERNAL_ERROR")
               (u "INTERNAL_ERROR: " ++ rest) [])
            [(u "message", PyStr (u "oops"))], [])
    /\ rest = u "oops"
    /\ get_http_status_code sample_pb2
         (mkMlflowException (u "INTERNAL_ERROR")
            (u "INTERNAL_ERROR: " ++ rest) []) = Ok 500.
Proof.
  apply (rest_exception_without_code sample_pb2 sample_repr
           [(u "message", PyStr (u "oops"))] eq_refl eq_refl).
Defined.

(** X15: a response whose [error_code] is not a string but a number, a
    boolean or null gives, without raising, the code INTERNAL_ERROR and
    one warning that shows the value; the message starts with the [str]
    of the value. *)
Theorem rest_exception_non_string_code
    (pb : databricks_pb2) (py_repr : pyval -> pystr)
    (json_ : pydict) (v : pyval) :
  pb2_wf pb = true ->
  py_get json_ (u "error_code") = Some v ->
  hashable v = true ->
  (forall s, v <> PyStr s) ->
  exists rest,
    RestException__init__ pb py_repr json_
    = Ok (mkRestException
            (mkMlflowException (u "INTERNAL_ERROR")
               (py_repr v ++ u ": " ++ rest) [])
            json_,
          [mkLog (u "WARNING") (unrecognized_warning py_repr v)])
    /\ rest = match py_get json_ (u "message") with
              | Some m => py_str py_repr m
              | None => u "Response: " ++ py_str py_repr (PyDict json_)
              end.
Proof.
  intros wf Hc Hh Hs.
  rewrite (RestException__init__eq pb py_repr wf).
  unfold response_message, response_code; rewrite Hc.
  destruct v as [|b|z|s|l|d]; try discriminate;
    try (exfalso; apply (Hs s); reflexivity);
    eexists; split; reflexivity.
Qed.

Lemma rest_exception_non_string_code_witness :
  exists rest,
    RestException__init__ sample_pb2 sample_repr
      [(u "error_code", PyInt 404); (u "message", PyStr (u "Not Found"))]
    = Ok (mkRestException
            (mkMlflowException (u "INTERNAL_ERROR")
               (sample_repr (PyInt 404) ++ u ": " ++ rest) [])
            [(u "error_code", PyInt 404);
             (u "message", PyStr (u "Not Found"))],
          [mkLog (u "WARNING")
             (unrecognized_warning sample_repr (PyInt 404))])
    /\ rest = u "Not Found".
Proof.
  apply (rest_exception_non_string_code sample_pb2 sample_repr
           [(u "error_code", PyInt 404); (u "message", PyStr (u "Not Found"))]
           (PyInt 404) eq_refl eq_refl eq_refl).
  intros s; discriminate.
Defined.

(** X16: wrapping twice prefixes twice. The dictionary
    [serialize_as_json] prints for a [RestException] holds only
    [error_code] and [message], not the response it was built from; and a
    [RestException] built from this dictionary has, when the code is one
    of the imported codes, the same code and the message
    ["<code>: "] followed by the message of the first. *)
Theorem rest_exception_rewrap_prefixes_again
    (pb : databricks_pb2) (py_repr : pyval -> pystr)
    (json_ : pydict) (r : RestException) (logs : list LogRecord) (c : Z) :
  pb2_wf pb = true ->
  RestException__init__ pb py_repr json_ = Ok (r, logs) ->
  In (error_code (base r), c) (imported pb) ->
  exception_dict (base r)
  = [(u "error_code", PyStr (error_code (base r)));
     (u "message", PyStr (message (base r)))]
  /\ RestException__init__ pb py_repr (exception_dict (base r))
     = Ok (mkRestException
             (mkMlflowException (error_code (base r))
                (error_code (base r) ++ u ": " ++ message (base r)) [])
             (exception_dict (base r)), []).
Proof.
  intros wf Hr H.
  assert (K : json_kwargs (base r) = []).
  { rewrite (RestException__init__eq pb py_repr wf) in Hr.
    destruct (ErrorCode_Value pb (response_code json_)) as [k|[]];
      try discriminate; injection Hr as <- _; reflexivity. }
  assert (D : exception_dict (base r)
              = [(u "error_code", PyStr (error_code (base r)));
                 (u "message", PyStr (message (base r)))])
    by (unfold exception_dict; rewrite K; reflexivity).
  split; [exact D|].
  rewrite D.
  apply (rest_exception_known_code_aux pb py_repr _ (error_code (base r)) c
           (PyStr (message (base r))) wf H); reflexivity.
Qed.

Lemma rest_exception_rewrap_prefixes_again_witness :
  RestException__init__ sample_pb2 sample_repr
    (exception_dict
       (mkMlflowException (u "NOT_FOUND") (u "NOT_FOUND: gone") []))
  = Ok (mkRestException
          (mkMlflowException (u "NOT_FOUND")
             (u "NOT_FOUND: NOT_FOUND: gone") [])
          [(u "error_code", PyStr (u "NOT_FOUND"));
           (u "message", PyStr (u "NOT_FOUND: gone"))], []).
Proof.
  apply (rest_exception_rewrap_prefixes_again sample_pb2 sample_repr
           [(u "error_code", PyStr (u "NOT_FOUND"));
            (u "message", PyStr (u "gone"))]
           (mkRestException
              (mkMlflowException (u "NOT_FOUND") (u "NOT_FOUND: gone") [])
              [(u "error_code", PyStr (u "NOT_FOUND"));
               (u "message", PyStr (u "gone"))])
           [] 11 eq_refl eq_refl).
  unfold imported; cbn; tauto.
Defined.

(** ** The order of the keys *)

Section DictOrder.
Context {K V : Type} (eqb : K -> K -> bool).
Hypothesis eqb_spec : forall a b, eqb a b = true <-> a = b.

Lemma dict_set_new (k : K) (v : V) d :
  ~ In k (map fst d) -> dict_set eqb k v d = d ++ [(k, v)].
Proof.
  induction d as [|[k0 v0] d IH]; simpl; intros N; [reflexivity|].
  rewrite (eqb_neq eqb eqb_spec) by (intros E; apply N; auto).
  rewrite IH by tauto; reflexivity.
Qed.

(** Updating with entries whose keys are new appends them in order. *)
Lemma dict_update_new d (e : list (K * V)) :
  dict_ok e ->
  (forall k, In k (map fst e) -> ~ In k (map fst d)) ->
  dict_update eqb d e = d ++ e.
Proof.
  unfold dict_update, dict_ok; revert d.
  induction e as [|[k v] e IH]; simpl; intros d ND H.
  - symmetry; apply app_nil_r.
  - inversion ND as [|? ? Hk ND']; subst.
    rewrite dict_set_new by (apply H; auto).
    rewrite IH; [rewrite <- app_assoc; reflexivity | exact ND' |].
    intros k' Hk' Hin; rewrite map_app, in_app_iff in Hin.
    destruct Hin as [Hin|[<-|[]]]; [exact (H k' (or_intror Hk') Hin)|].
    contradiction.
Qed.

End DictOrder.

(** X17: when no extra is named [error_code] or [message], the object
    [serialize_as_json] prints lists [error_code], then [message], then
    the extras in the order they were given. *)
Theorem serialize_as_json_key_order (e : MlflowException) :
  dict_ok (json_kwargs e) ->
  py_get (json_kwargs e) (u "error_code") = None ->
  py_get (json_kwargs e) (u "message") = None ->
  exception_dict e
  = [(u "error_code", PyStr (error_code e)); (u "message", PyStr (message e))]
      ++ json_kwargs e
  /\ serialize_as_json e
     = json_dumps
         (PyDict
            ([(u "error_code", PyStr (error_code e));
              (u "message", PyStr (message e))] ++ json_kwargs e)).
Proof.
  intros Hok H1 H2.
  assert (D : exception_dict e
              = [(u "error_code", PyStr (error_code e));
                 (u "message", PyStr (message e))] ++ json_kwargs e).
  { unfold exception_dict, py_update.
    change (dict_literal pystr_eqb
              [(u "error_code", PyStr (error_code e));
               (u "message", PyStr (message e))])
      with [(u "error_code", PyStr (error_code e));
            (u "message", PyStr (message e))].
    apply (dict_update_new pystr_eqb pystr_eqb_spec); [exact Hok|].
    intros k Hk [<-|[<-|[]]].
    - apply (dict_get_None pystr_eqb pystr_eqb_spec) in H1; contradiction.
    - apply (dict_get_None pystr_eqb pystr_eqb_spec) in H2; contradiction. }
  split; [exact D|].
  unfold serialize_as_json; rewrite D; reflexivity.
Qed.

Lemma serialize_as_json_key_order_witness :
  serialize_as_json
    (mkMlflowException (u "ABORTED") (u "stop")
       [(u "b", PyInt 2); (u "a", PyInt 1)])
  = uq "{'error_code': 'ABORTED', 'message': 'stop', 'b': 2, 'a': 1}".
Proof.
  assert (ok : dict_ok [(u "b", PyInt 2); (u "a", PyInt 1)]).
  { repeat constructor; simpl; intuition discriminate. }
  destruct (serialize_as_json_key_order
              (mkMlflowException (u "ABORTED") (u "stop")
                 [(u "b", PyInt 2); (u "a", PyInt 1)])
              ok eq_refl eq_refl) as [_ H].
  rewrite H; reflexivity.
Defined.

(** ** Which code the comprehension keeps *)

Lemma find_app_last {A} (p : A -> bool) (l : list A) (a : A) :
  find p (l ++ [a]) =
  match find p l with
  | Some x => Some x
  | None => if p a then Some a else None
  end.
Proof.
  induction l as [|x l IH]; simpl; [reflexivity|].
  destruct (p x); [reflexivity | exact IH].
Qed.

Lemma comprehension_get (items : list (pystr * Z)) (d0 : list (Z * pystr))
    (s : Z) :
  dict_get Z.eqb
    (fold_left (fun d kv => dict_set Z.eqb (snd kv) (fst kv) d) items d0) s
  = match find (fun kv : pystr * Z => snd kv =? s) (rev items) with
    | Some kv => Some (fst kv)
    | None => dict_get Z.eqb d0 s
    end.
Proof.
  revert d0; induction items as [|a items IH]; intros d0; [reflexivity|].
  cbn [fold_left rev]; rewrite IH, find_app_last.
  destruct (find _ (rev items)); [reflexivity|].
  destruct (Z.eqb_spec (snd a) s) as [E|N].
  - rewrite <- E; apply (dict_get_set_eq Z.eqb Z_eqb_spec).
  - apply (dict_get_set_neq Z.eqb Z_eqb_spec); congruence.
Qed.

(** X18: for a status other than 400, 404 and 500, the code
    [HTTP_STATUS_TO_ERROR_CODE] keeps is the one of the last entry with
    this status among the items the comprehension visits, and the status
    is no key when no entry has it. *)
Theorem comprehension_last_entry_wins
    (pb : databricks_pb2) (items : list (pystr * Z)) (s : Z) :
  pb2_wf pb = true ->
  s <> 400 -> s <> 404 -> s <> 500 ->
  exists d,
    HTTP_STATUS_TO_ERROR_CODE_from pb items = Ok d
    /\ dict_get Z.eqb d s
       = match find (fun kv : pystr * Z => snd kv =? s) (rev items) with
         | Some kv => Some (fst kv)
         | None => None
         end.
Proof.
  intros wf H400 H404 H500.
  rewrite (HTTP_STATUS_TO_ERROR_CODE_from_eq pb wf).
  eexists; split; [reflexivity|].
  rewrite !(dict_get_set_neq Z.eqb Z_eqb_spec) by assumption.
  apply comprehension_get.
Qed.

Lemma comprehension_last_entry_wins_witness :
  exists d,
    HTTP_STATUS_TO_ERROR_CODE_from sample_pb2
      [(u "ABORTED", 409); (u "RESOURCE_CONFLICT", 409);
       (u "NOT_FOUND", 404)] = Ok d
    /\ dict_get Z.eqb d 409 = Some (u "RESOURCE_CONFLICT").
Proof.
  apply (comprehension_last_entry_wins sample_pb2
           [(u "ABORTED", 409); (u "RESOURCE_CONFLICT", 409);
            (u "NOT_FOUND", 404)] 409 eq_refl); discriminate.
Defined.

(** * What the digest is computed from *)

Lemma unhex_hex_digit (x : Z) :
  0 <= x < 16 -> unhex (MD5.hex_digit x) = Z.to_N x.
Proof.
  intros H; unfold unhex, MD5.hex_digit.
  destruct (x <? 10) eqn:E.
  - apply Z.ltb_lt in E.
    replace ((Z.to_N (48 + x) <? 58)%N) with true
      by (symmetry; apply N.ltb_lt; lia).
    lia.
  - apply Z.ltb_ge in E.
    replace ((Z.to_N (87 + x) <? 58)%N) with false
      by (symmetry; apply N.ltb_ge; lia).
    lia.
Qed.

Lemma unhex4_hex4 (n : N) (r : pystr) :
  (n < 65536)%N ->
  exists a b c d,
    hex4 n ++ r = a :: b :: c :: d :: r /\ unhex4 a b c d = n.
Proof.
  intros H; unfold hex4.
  do 4 eexists; split; [reflexivity|].
  unfold unhex4.
  rewrite !unhex_hex_digit by (apply Z.mod_pos_bound; lia).
  assert (0 <= Z.of_N n < 65536) by lia.
  remember (Z.of_N n) as z eqn:Ez.
  assert (E : z = 4096 * ((z / 4096) mod 16) + 256 * ((z / 256) mod 16)
                  + 16 * ((z / 16) mod 16) + z mod 16).
  { pose proof (Z.div_mod z 16 ltac:(lia)).
    pose proof (Z.div_mod (z / 16) 16 ltac:(lia)).
    pose proof (Z.div_mod (z / 256) 16 ltac:(lia)).
    assert (z / 256 = z / 16 / 16) by (rewrite Z.div_div by lia; reflexivity).
    assert (z / 4096 = z / 256 / 16) by (rewrite Z.div_div by lia; reflexivity).
    assert ((z / 4096) mod 16 = z / 4096).
    { apply Z.mod_small; split; [apply Z.div_pos; lia|].
      apply Z.div_lt_upper_bound; lia. }
    lia. }
  pose proof (Z.mod_pos_bound (z / 4096) 16 ltac:(lia)).
  pose proof (Z.mod_pos_bound (z / 256) 16 ltac:(lia)).
  pose proof (Z.mod_pos_bound (z / 16) 16 ltac:(lia)).
  pose proof (Z.mod_pos_bound z 16 ltac:(lia)).
  lia.
Qed.

Lemma lor_surrogate_base (y : N) :
  (y < 1024)%N ->
  N.lor 55296 y = (55296 + y)%N /\ N.lor 56320 y = (56320 + y)%N.
Proof.
  intros H.
  assert (C : forallb
                (fun y => ((N.lor 55296 y =? 55296 + y)
                           && (N.lor 56320 y =? 56320 + y))%N)
                (map N.of_nat (seq 0 1024)) = true)
    by (vm_compute; reflexivity).
  rewrite forallb_forall in C.
  assert (I : In y (map N.of_nat (seq 0 1024))).
  { rewrite <- (N2Nat.id y); apply in_map, in_seq; lia. }
  specialize (C y I); apply andb_true_iff in C.
  destruct C as [C1 C2]; apply N.eqb_eq in C1, C2; auto.
Qed.

Lemma surrogate_pair (c : N) :
  (65536 <= c < 1114112)%N ->
  N.lor 55296 (N.land (N.shiftr (c - 65536) 10) 1023)
  = (55296 + (c - 65536) / 1024)%N
  /\ N.lor 56320 (N.land (c - 65536) 1023)
     = (56320 + (c - 65536) mod 1024)%N.
Proof.
  intros H; set (n := (c - 65536)%N).
  assert (Hn : (n < 1048576)%N) by (unfold n; lia).
  change 1023%N with (N.ones 10).
  rewrite !N.land_ones, N.shiftr_div_pow2.
  change (2 ^ 10)%N with 1024%N.
  assert (Hd : (n / 1024 < 1024)%N) by (apply N.Div0.div_lt_upper_bound; lia).
  rewrite (N.mod_small (n / 1024) 1024) by exact Hd.
  split; apply lor_surrogate_base; [exact Hd|].
  apply N.mod_lt; lia.
Qed.

Lemma is_scalar_spec (c : N) :
  is_scalar c = true ->
  (c < 55296 \/ (57343 < c /\ c < 1114112))%N.
Proof.
  unfold is_scalar; intros H.
  apply orb_true_iff in H; destruct H as [H|H].
  - left; apply N.ltb_lt, H.
  - right; apply andb_true_iff in H; destruct H as [H1 H2].
    split; apply N.ltb_lt; assumption.
Qed.

(** [unescape1] reads back what [escape_char] wrote, whatever follows. *)
Lemma unescape1_escape_char (c : N) (r : pystr) :
  is_scalar c = true ->
  unescape1 (escape_char c ++ r) = Some (c, r).
Proof.
  intros Hs; apply is_scalar_spec in Hs.
  unfold escape_char.
  destruct (N.eqb_spec c 92) as [->|N92]; [reflexivity|].
  destruct (N.eqb_spec c 34) as [->|N34]; [reflexivity|].
  destruct (N.eqb_spec c 8) as [->|N8]; [reflexivity|].
  destruct (N.eqb_spec c 12) as [->|N12]; [reflexivity|].
  destruct (N.eqb_spec c 10) as [->|N10]; [reflexivity|].
  destruct (N.eqb_spec c 13) as [->|N13]; [reflexivity|].
  destruct (N.eqb_spec c 9) as [->|N9]; [reflexivity|].
  destruct ((32 <=? c)%N && (c <=? 126)%N) eqn:Ep.
  - cbn [app]; unfold unescape1.
    destruct (N.eqb_spec c 92); [contradiction | reflexivity].
  - destruct (N.ltb_spec c 65536) as [Hlt|Hge].
    + destruct (unhex4_hex4 c r Hlt) as [a [b [c' [d [E1 E2]]]]].
      unfold u_escape; rewrite <- app_assoc; cbn [app]; rewrite E1.
      unfold unescape1; cbn [N.eqb Pos.eqb]; cbv zeta; rewrite E2.
      replace ((55296 <=? c)%N && (c <? 56320)%N) with false;
        [reflexivity|].
      symmetry; apply andb_false_iff.
      destruct Hs as [Hs|[Hs _]];
        [left; apply N.leb_gt; lia | right; apply N.ltb_ge; lia].
    + assert (Hc : (65536 <= c < 1114112)%N) by lia.
      destruct (surrogate_pair c Hc) as [Ehi Elo].
      cbv zeta; rewrite Ehi, Elo; clear Ehi Elo.
      pose proof (N.div_mod (c - 65536) 1024 ltac:(discriminate)) as Hdm.
      assert (Hq : ((c - 65536) / 1024 < 1024)%N)
        by (apply N.Div0.div_lt_upper_bound; lia).
      assert (Hm : ((c - 65536) mod 1024 < 1024)%N)
        by (apply N.mod_lt; discriminate).
      revert Hdm Hq Hm.
      generalize ((c - 65536) / 1024)%N, ((c - 65536) mod 1024)%N.
      intros q m Hdm Hq Hm.
      assert (Hhi : (55296 + q < 65536)%N) by lia.
      assert (Hlo : (56320 + m < 65536)%N) by lia.
      destruct (unhex4_hex4 (56320 + m) r Hlo)
        as [a' [b' [c' [d' [F1 F2]]]]].
      destruct (unhex4_hex4 (55296 + q)
                  (92%N :: 117%N :: a' :: b' :: c' :: d' :: r) Hhi)
        as [a [b [c0 [d [E1 E2]]]]].
      unfold u_escape; rewrite <- !app_assoc; cbn [app].
      rewrite F1, E1.
      unfold unescape1; cbn [N.eqb Pos.eqb]; cbv zeta; rewrite E2, F2.
      replace ((55296 <=? 55296 + q)%N && (55296 + q <? 56320)%N) with true.
      * f_equal; f_equal; lia.
      * symmetry; apply andb_true_iff; split;
          [apply N.leb_le | apply N.ltb_lt]; lia.
Qed.

Lemma escape_char_head (c : N) :
  exists x rest, escape_char c = x :: rest /\ x <> 34%N.
Proof.
  unfold escape_char.
  repeat match goal with
         | |- context [if (c =? ?k)%N then _ else _] =>
             destruct (N.eqb_spec c k);
             [do 2 eexists; split; [reflexivity | discriminate]|]
         end.
  destruct ((32 <=? c)%N && (c <=? 126)%N);
    [do 2 eexists; split; [reflexivity | assumption]|].
  destruct (c <? 65536)%N; do 2 eexists; split;
    try reflexivity; discriminate.
Qed.

(** Escaped strings, closed by a quote, can be read back: two strings of
    scalar values with the same escaped text are equal, and so is what
    follows the closing quote. *)
Lemma escape_string_inj (s s' R R' : pystr) :
  Forall (fun c => is_scalar c = true) s ->
  Forall (fun c => is_scalar c = true) s' ->
  flat_map escape_char s ++ 34%N :: R
  = flat_map escape_char s' ++ 34%N :: R' ->
  s = s' /\ R = R'.
Proof.
  intros Hs; revert s'.
  induction Hs as [|c s Hc _ IH]; intros [|c' s'] Hs' E.
  - injection E as ->; auto.
  - exfalso; cbn [flat_map app] in E.
    destruct (escape_char_head c') as [x [rest [E' N]]].
    rewrite E' in E; injection E as E _; congruence.
  - exfalso; cbn [flat_map app] in E.
    destruct (escape_char_head c) as [x [rest [E' N]]].
    rewrite E' in E; injection E as E _; congruence.
  - inversion Hs' as [|? ? Hc' Hs'']; subst.
    cbn [flat_map] in E; rewrite <- !app_assoc in E.
    assert (U := f_equal unescape1 E).
    rewrite !unescape1_escape_char in U by assumption.
    injection U as -> U.
    destruct (IH s' Hs'' U) as [-> ->]; auto.
Qed.

Lemma config_json_shape (n s t : pystr) :
  config_json n s t
  = uq "{'name': '" ++ flat_map escape_char n
      ++ 34%N :: uq ", 'source': '" ++ flat_map escape_char s
      ++ 34%N :: uq ", 'source_type': '" ++ flat_map escape_char t
      ++ 34%N :: u "}".
Proof.
  unfold config_json; cbn [json_dumps map join fst snd].
  unfold encode_basestring_ascii; rewrite <- !app_assoc; reflexivity.
Qed.

Lemma config_json_inj (n s t n' s' t' : pystr) :
  Forall (fun c => is_scalar c = true) n ->
  Forall (fun c => is_scalar c = true) s ->
  Forall (fun c => is_scalar c = true) t ->
  Forall (fun c => is_scalar c = true) n' ->
  Forall (fun c => is_scalar c = true) s' ->
  Forall (fun c => is_scalar c = true) t' ->
  config_json n s t = config_json n' s' t' ->
  n = n' /\ s = s' /\ t = t'.
Proof.
  intros Hn Hs Ht Hn' Hs' Ht' E.
  rewrite !config_json_shape in E.
  apply app_inv_head in E.
  apply escape_string_inj in E; [|assumption|assumption].
  destruct E as [-> E].
  apply app_inv_head in E.
  apply escape_string_inj in E; [|assumption|assumption].
  destruct E as [-> E].
  apply app_inv_head in E.
  apply escape_string_inj in E; [|assumption|assumption].
  destruct E as [-> _]; auto.
Qed.

Lemma bytes_of_inj (a b : pystr) : bytes_of a = bytes_of b -> a = b.
Proof.
  revert b; induction a as [|x a IH]; intros [|y b] E; try discriminate;
    [reflexivity|].
  injection E as E1 E2; apply N2Z.inj in E1; subst; f_equal; auto.
Qed.

(** X19: the bytes [_compute_digest] hashes determine the name, the
    serialized source and the source type, as long as these strings hold
    no surrogate code point: two datasets whose hashed bytes agree agree
    on the three. With surrogates this fails: the name made of U+1F600
    and the name made of the surrogates U+D83D U+DE00 are hashed alike
    and get the same digest. *)
Theorem digest_input_determines_fields
    (self self' : Dataset) (src src' : DatasetSource) :
  source self = Some src ->
  source self' = Some src' ->
  Forall (fun c => is_scalar c = true)
    (name self ++ to_json src ++ _get_source_type src) ->
  Forall (fun c => is_scalar c = true)
    (name self' ++ to_json src' ++ _get_source_type src') ->
  let hashed d s :=
    bytes_of (config_json (name d) (to_json s) (_get_source_type s)) in
  _compute_digest self = Ok (firstn 8 (MD5.hexdigest (hashed self src)))
  /\ _compute_digest self'
     = Ok (firstn 8 (MD5.hexdigest (hashed self' src')))
  /\ (hashed self src = hashed self' src' ->
      name self = name self' /\ to_json src = to_json src'
      /\ _get_source_type src = _get_source_type src')
  /\ _compute_digest (mkDataset (Some [128512%N]) (Some src) [])
     = _compute_digest (mkDataset (Some [55357%N; 56832%N]) (Some src) []).
Proof.
  intros Hs Hs' H H' hashed; subst hashed; cbv beta.
  apply Forall_app in H; destruct H as [Hn H].
  apply Forall_app in H; destruct H as [Hj Ht].
  apply Forall_app in H'; destruct H' as [Hn' H'].
  apply Forall_app in H'; destruct H' as [Hj' Ht'].
  split; [apply _compute_digest_eq, Hs|].
  split; [apply _compute_digest_eq, Hs'|].
  split.
  - intros E; apply bytes_of_inj in E.
    apply config_json_inj in E; assumption.
  - rewrite (_compute_digest_eq
               (mkDataset (Some [128512%N]) (Some src) []) src eq_refl).
    rewrite (_compute_digest_eq
               (mkDataset (Some [55357%N; 56832%N]) (Some src) []) src
               eq_refl).
    reflexivity.
Qed.

Lemma digest_input_determines_fields_witness :
  _compute_digest
    (mkDataset None (Some (mkDatasetSource (u "s3://b/k") (u "s3"))) [])
  = Ok (firstn 8
          (MD5.hexdigest
             (bytes_of (config_json (u "dataset") (u "s3://b/k") (u "s3")))))
  /\ (bytes_of (config_json (u "dataset") (u "s3://b/k") (u "s3"))
      = bytes_of (config_json (u "data") (u "s3://b/k") (u "s3")) ->
      u "dataset" = u "data").
Proof.
  assert (ok : Forall (fun c => is_scalar c = true)
                 (u "dataset" ++ u "s3://b/k" ++ u "s3"))
    by (repeat constructor).
  assert (ok' : Forall (fun c => is_scalar c = true)
                  (u "data" ++ u "s3://b/k" ++ u "s3"))
    by (repeat constructor).
  destruct (digest_input_determines_fields
              (mkDataset None (Some (mkDatasetSource (u "s3://b/k") (u "s3")))
                 [])
              (mkDataset (Some (u "data"))
                 (Some (mkDatasetSource (u "s3://b/k") (u "s3"))) [])
              (mkDatasetSource (u "s3://b/k") (u "s3"))
              (mkDatasetSource (u "s3://b/k") (u "s3"))
              eq_refl eq_refl ok ok') as [H1 [_ [H _]]].
  split; [exact H1 | intros E; apply H, E].
Defined.
